(** * Finite-difference solver of the Kolmogorov forward equation

    A shallow embedding of the numerical core of
    [lectures/scripts/lec4_kolmogorov_forward_equation_np.ipynb]:
    the uniform grid of cell 9 ([xs], [dx]), and [fpk_operator], [euler] and
    [solve_fpk] of cell 10.

    Numbers are IEEE 754 binary64 values, as numpy's [float64] arrays hold
    them: Rocq's primitive [float], whose operations are the hardware ones
    (round to nearest, ties to even).  A 1-D array is a [list float]; the
    arrays that the notebook mutates or shares live in a store of array
    objects addressed by references.  The one scalar operation that is not
    an IEEE operation, Python's [b ** 2], goes through the C library's [pow],
    which is a parameter. *)

From Stdlib Require Import ZArith List Lia Bool Floats.
From stdpp Require Import base option list gmap.

#[local] Set Warnings "-inexact-float".

(** ** Exceptions and fallible results *)

(** The Python exceptions the core can raise. *)
Inductive exn : Type :=
  | ValueError   (* numpy: shape mismatch, array too small, negative size *)
  | IndexError   (* index out of bounds *)
  | TypeError    (* an object of the wrong kind where an array is expected *)
  | OverflowError.   (* a Python float operation out of range *)

Inductive res (A : Type) : Type :=
  | Ok (x : A)
  | Raise (e : exn).

Arguments Ok {A} x.
Arguments Raise {A} e.

#[global] Instance res_ret : MRet res := fun A x => Ok x.
#[global] Instance res_bind : MBind res := fun A B f m =>
  match m with
  | Ok x => f x
  | Raise e => Raise e
  end.

(** ** Python's power of a float *)

(** The error number a C library call leaves in [errno]: none, [ERANGE], or
    any other one ([EDOM]). *)
Inductive errno : Type :=
  | ENONE
  | ERANGE
  | EDOM.

Module py.

Section Power.

(** The C library's [pow], with the [errno] it sets.  Its value is not
    fixed by IEEE 754: libraries differ in the last bit. *)
Variable pow : float -> float -> float * errno.

(** CPython's [float_pow] at the exponent [2], the expression [v ** 2] for a
    Python float [v]: NaN, infinities, zeros and [1] are answered without the
    C library; any other base goes to [pow] by its absolute value, and a
    result out of range raises [OverflowError]. *)
Definition float_pow2 (v : float) : res float :=
  if is_nan v then Ok v
  else if is_infinity v then Ok (abs v)
  else if (v =? 0)%float then Ok 0%float
  else
    let iv := if (v <? 0)%float then (- v)%float else v in
    if (iv =? 1)%float then Ok 1%float
    else
      let '(ix, e) := pow iv 2%float in
      let e :=
        match e with
        | ENONE => if is_infinity ix then ERANGE else ENONE
        | ERANGE => if (ix =? 0)%float then ENONE else ERANGE
        | EDOM => EDOM
        end in
      match e with
      | ENONE => Ok ix
      | ERANGE => Raise OverflowError
      | EDOM => Raise ValueError
      end.

End Power.

End py.

(** One C library, for running the model: at the exponent [2], the only one
    the notebook passes, its [pow] is the correctly rounded square, with
    [ERANGE] when the square overflows.  The theorems hold for every [pow]. *)
Definition c_pow_rn (x y : float) : float * errno :=
  let r := (x * x)%float in
  (r, if is_infinity r then ERANGE else ENONE).

(** ** The numpy primitives the notebook calls *)

Module np.

(** Conversion of a Python [int] to [float64] (array sizes and indices, far
    below [2^63]). *)
Definition of_Z (z : Z) : float :=
  if (z <? 0)%Z then (- of_uint63 (Uint63.of_Z (- z)))%float
  else of_uint63 (Uint63.of_Z z).

Definition of_nat (n : nat) : float := of_Z (Z.of_nat n).

(** [x ** 2] on an entry of an array: numpy evaluates the square of an
    array as [x * x]. *)
Definition pow2 (x : float) : float := (x * x)%float.

(** Element-wise binary operation with numpy's broadcasting rule for 1-D
    operands: equal lengths combine point by point, a length-1 operand is
    stretched, any other pair of shapes raises [ValueError]. *)
Definition broadcast (op : float -> float -> float)
    (u v : list float) : res (list float) :=
  if decide (length u = length v) then Ok (zip_with op u v)
  else match u, v with
       | [x], _ => Ok (map (op x) v)
       | _, [y] => Ok (map (fun x => op x y) u)
       | _, _ => Raise ValueError
       end.

Definition add := broadcast PrimFloat.add.
Definition mul := broadcast PrimFloat.mul.

(** A Python scalar on the left, an array on the right: [c * v]. *)
Definition smul (c : float) (v : list float) : list float :=
  map (fun x => (c * x)%float) v.

(** An array on the left, a scalar on the right: [v * c]. *)
Definition muls (v : list float) (c : float) : list float :=
  map (fun x => (x * c)%float) v.

(** Unary minus and [v ** 2] on an array. *)
Definition neg (v : list float) : list float := map PrimFloat.opp v.
Definition square (v : list float) : list float := map pow2 v.

(** [v[i]] for a non-negative index. *)
Definition index (v : list float) (i : nat) : res float :=
  match v !! i with
  | Some x => Ok x
  | None => Raise IndexError
  end.

(** [np.arange(0, num)] as [float64]. *)
Definition arange (num : nat) : list float := map of_nat (seq 0 num).

(** [y[-1] = stop]. *)
Definition set_last (y : list float) (stop : float) : list float :=
  <[pred (length y) := stop]> y.

(** [np.linspace(start, stop, num)] with the default [endpoint=True]:
    [num] samples [start + i * step], [step = (stop - start) / (num - 1)],
    the last one overwritten with [stop] itself.  A step that rounds to
    zero takes numpy's other order of operations, [i / (num - 1) * delta]. *)
Definition linspace (start stop : float) (num : Z) : res (list float) :=
  if (num <? 0)%Z then Raise ValueError
  else
    let div := (num - 1)%Z in
    let delta := (stop - start)%float in
    let y := arange (Z.to_nat num) in
    let y :=
      if (0 <? div)%Z then
        let step := (delta / of_Z div)%float in
        if (step =? 0)%float
        then muls (map (fun i => (i / of_Z div)%float) y) delta
        else muls y step
      else muls y delta in
    let y := map (fun v => (v + start)%float) y in
    Ok (if (1 <? num)%Z then set_last y stop else y).

(** Interior points of [np.gradient(f, h)]:
    [(f[2:] - f[:-2]) / (2. * h)]. *)
Definition gradient_interior (f : list float) (h : float) : list float :=
  zip_with (fun hi lo => ((hi - lo) / (2 * h))%float) (drop 2 f) f.

(** [np.gradient(f, h)] for a 1-D array and a scalar spacing, with the
    default [edge_order=1]: central differences inside, one-sided
    differences at both ends; fewer than two samples raise [ValueError]. *)
Definition gradient (f : list float) (h : float) : res (list float) :=
  match f with
  | f0 :: f1 :: _ =>
      let n := length f in
      let first := ((f1 - f0) / h)%float in
      let last := ((nth (n - 1) f 0 - nth (n - 2) f 0) / h)%float in
      Ok (first :: gradient_interior f h ++ [last])
  | _ => Raise ValueError
  end.

End np.

(** ** Cell 9: the uniform grid *)

(** [xs = np.linspace(x_min, x_max, N); dx = xs[1] - xs[0]], the notebook's
    cell with its literals [-2], [6] and [500] as parameters. *)
Definition build_grid (x_min x_max : float) (N : Z) : res (list float * float) :=
  xs ← np.linspace x_min x_max N;
  x1 ← np.index xs 1;
  x0 ← np.index xs 0;
  Ok (xs, (x1 - x0)%float).

(** The two results of the cell, when it runs through. *)
Definition points_of (g : res (list float * float)) : list float :=
  match g with
  | Ok (xs, _) => xs
  | Raise _ => []
  end.

Definition spacing_of (g : res (list float * float)) : float :=
  match g with
  | Ok (_, dx) => dx
  | Raise _ => 0%float
  end.

(** ** Cell 10: operator and Euler step *)

Section Operator.

(** The C library's [pow] behind the scalar [b ** 2]. *)
Variable pow : float -> float -> float * errno.
(** Cell 2: the coefficients of the geometric Brownian motion. *)
Variables a b : float.
(** Cell 9: the grid and its spacing. *)
Variable xs : list float.
Variable dx : float.
(** Cell 3: the time step. *)
Variable dt : float.

Definition drift (x : list float) : list float := np.smul a x.
Definition dispersion (x : list float) : list float := np.smul b x.

Definition fpk_operator (ps : list float) : res (list float) :=
  let derivative_drift := a in
  let gamma := np.square (dispersion xs) in
  b_sq ← py.float_pow2 pow b;
  let derivative_gamma := np.smul (2 * b_sq)%float xs in
  b_sq' ← py.float_pow2 pow b;
  let second_derivative_gamma := (2 * b_sq')%float in
  derivative_p ← np.gradient ps dx;
  inner ← np.gradient ps dx;
  second_derivative_p ← np.gradient inner dx;
  t1 ← np.mul (drift xs) derivative_p;
  s1 ← np.add (np.smul derivative_drift ps) t1;
  let part1 := np.neg s1 in
  t2 ← np.mul (np.smul 2 derivative_gamma) derivative_p;
  s2 ← np.add (np.smul second_derivative_gamma ps) t2;
  t3 ← np.mul gamma second_derivative_p;
  s3 ← np.add s2 t3;
  np.add part1 (np.smul 0.5 s3).

Definition euler (ps : list float) : res (list float) :=
  r ← fpk_operator ps;
  np.add ps (np.muls r dt).

End Operator.

(** ** The store of array objects *)

(** A reference to an array object. *)
Abbreviation loc := positive.

(** What a reference points to: a 1-D array or a 2-D array stored by rows. *)
Inductive ndarray : Type :=
  | Arr1 (v : list float)
  | Arr2 (rows : list (list float)).

(** The global generator behind [np.random], set by [np.random.seed] in
    cell 1 and advanced by every draw of the trajectory sampler. *)
Record rng_state : Type := { seed : Z; draws : N }.

(** The interpreter state the notebook runs in. *)
Record state : Type := {
  heap : gmap loc ndarray;
  rng : rng_state
}.

(** Computations that read and write the state and may raise. *)
Definition M (A : Type) : Type := state -> res (A * state).

#[global] Instance M_ret : MRet M := fun A x s => Ok (x, s).
#[global] Instance M_bind : MBind M := fun A B f m s =>
  match m s with
  | Ok (x, s') => f x s'
  | Raise e => Raise e
  end.

Definition set_heap (h : gmap loc ndarray) (s : state) : state :=
  {| heap := h; rng := rng s |}.

Module ref.

(** A new array object at an unused reference. *)
Definition alloc (x : ndarray) : M loc := fun s =>
  let l := fresh (dom (heap s)) in
  Ok (l, set_heap (<[l := x]> (heap s)) s).

(** The contents of a 1-D array (any other object: [TypeError]). *)
Definition load (l : loc) : M (list float) := fun s =>
  match heap s !! l with
  | Some (Arr1 v) => Ok (v, s)
  | _ => Raise TypeError
  end.

(** [np.random.seed(n)]. *)
Definition random_seed (n : Z) : M () := fun s =>
  Ok ((), {| heap := heap s; rng := {| seed := n; draws := 0%N |} |}).

(** [np.zeros((T, N))]. *)
Definition zeros2 (T N : Z) : M loc :=
  if ((T <? 0) || (N <? 0))%Z then fun _ => Raise ValueError
  else alloc (Arr2 (replicate (Z.to_nat T) (replicate (Z.to_nat N) 0%float))).

(** [p.copy()], of an array of any shape. *)
Definition copy (p : loc) : M loc := fun s =>
  match heap s !! p with
  | Some x => alloc x s
  | None => Raise TypeError
  end.

(** A call [f(p)] of a function that reads its argument array and returns
    a new one.  The notebook's functions are modelled on 1-D arrays, the only
    ones the notebook passes; a 2-D argument is outside the model and is
    answered with [TypeError]. *)
Definition call (f : list float -> res (list float)) (p : loc) : M loc :=
  v ← load p;
  match f v with
  | Ok r => alloc (Arr1 r)
  | Raise e => fun _ => Raise e
  end.

(** The value assigned to a row of [n] entries from a 1-D source. *)
Definition broadcast_to (v : list float) (n : nat) : res (list float) :=
  if decide (length v = n) then Ok v
  else match v with
       | [x] => Ok (replicate n x)
       | _ => Raise ValueError
       end.

(** [m[k, :] = src]: overwrite row [k] of the 2-D array [m] in place. *)
Definition set_row (m : loc) (k : nat) (src : loc) : M () := fun s =>
  match heap s !! m, heap s !! src with
  | Some (Arr2 rows), Some (Arr1 v) =>
      match rows !! k with
      | None => Raise IndexError
      | Some row =>
          match broadcast_to v (length row) with
          | Ok v' => Ok ((), set_heap (<[m := Arr2 (<[k := v']> rows)]> (heap s)) s)
          | Raise e => Raise e
          end
      end
  | _, _ => Raise TypeError
  end.

End ref.

(** [for k in range(...)] threading the loop's local variable. *)
Fixpoint for_range (ks : list nat) (body : nat -> loc -> M loc) (ps : loc) : M loc :=
  match ks with
  | [] => mret ps
  | k :: ks' => ps' ← body k ps; for_range ks' body ps'
  end.

Section Solver.

Variable pow : float -> float -> float * errno.
Variables a b : float.
Variable xs : list float.
Variable dx : float.
Variable dt : float.
(** Cell 3 and cell 9: number of time steps and of grid points. *)
Variables T N : Z.

(** The body of the loop: [ps = euler(ps); pdfs[k, :] = ps]. *)
Definition solve_fpk_body (pdfs : loc) (k : nat) (ps : loc) : M loc :=
  ps' ← ref.call (euler pow a b xs dx dt) ps;
  _ ← ref.set_row pdfs k ps';
  mret ps'.

Definition solve_fpk (p0 : loc) : M loc :=
  pdfs ← ref.zeros2 T N;
  ps ← ref.copy p0;
  _ ← for_range (seq 0 (Z.to_nat T)) (solve_fpk_body pdfs) ps;
  mret pdfs.

End Solver.

(** What the caller sees of a run: the exception raised, or the contents of
    the array the returned reference points to. *)
Definition outcome (r : res (loc * state)) : res (option ndarray) :=
  match r with
  | Ok (l, s') => Ok (heap s' !! l)
  | Raise e => Raise e
  end.

(** The history and the working density hold the same values in both stores,
    wherever they are allocated. *)
Definition same_arrays (pdfs1 ps1 : loc) (s1 : state)
    (pdfs2 ps2 : loc) (s2 : state) : Prop :=
  exists rows v,
    heap s1 !! pdfs1 = Some (Arr2 rows) /\ heap s2 !! pdfs2 = Some (Arr2 rows)
    /\ heap s1 !! ps1 = Some (Arr1 v) /\ heap s2 !! ps2 = Some (Arr1 v).

(** Two results of the loop agree: the same exception, or the same values. *)
Definition same_result (pdfs1 pdfs2 : loc)
    (r1 r2 : res (loc * state)) : Prop :=
  match r1, r2 with
  | Ok (l1, s1), Ok (l2, s2) => same_arrays pdfs1 l1 s1 pdfs2 l2 s2
  | Raise e1, Raise e2 => e1 = e2
  | _, _ => False
  end.

(** A computation that leaves the random generator as it found it. *)
Definition keeps_rng {A} (m : M A) : Prop :=
  forall s x s', m s = Ok (x, s') -> rng s' = rng s.

(** ** The claimed operator, point by point *)

(** The difference scheme of the specification on [n] samples [p 0 .. p (n-1)]
    with spacing [h]: one-sided at both ends, central in between. *)
Definition diff_scheme (n : nat) (h : float) (p : nat -> float) (i : nat) : float :=
  if decide (i = 0) then ((p 1%nat - p 0%nat) / h)%float
  else if decide (i = n - 1) then ((p (n - 1)%nat - p (n - 2)%nat) / h)%float
  else ((p (i + 1)%nat - p (i - 1)%nat) / (2 * h))%float.

Section Specification.

Variables a b : float.
(** The value of the Python expression [b ** 2]. *)
Variable b2 : float.
Variable xs : list float.
Variable dx : float.
Variable dt : float.

(** The analytic coefficients of the specification at a grid point [x]. *)
Definition drift_at (x : float) : float := (a * x)%float.
Definition drift'_at (x : float) : float := a.
Definition gamma_at (x : float) : float := np.pow2 (b * x).
Definition gamma'_at (x : float) : float := (2 * b2 * x)%float.
Definition gamma''_at (x : float) : float := (2 * b2)%float.

(** [L[p]] at grid point [i]:
    [-(drift'·p + drift·p') + ½(γ''·p + 2γ'·p' + γ·p'')], where [p'] is the
    difference scheme on [p] and [p''] the same scheme on [p']. *)
Definition L_at (ps : list float) (i : nat) : float :=
  let n := length ps in
  let x := nth i xs 0%float in
  let p := fun j => nth j ps 0%float in
  let p' := diff_scheme n dx p in
  let p'' := diff_scheme n dx p' in
  (- (drift'_at x * p i + drift_at x * p' i)
   + 0.5 * (gamma''_at x * p i + 2 * gamma'_at x * p' i + gamma_at x * p'' i))%float.

(** [L[p]] on the whole grid. *)
Definition L (ps : list float) : list float :=
  map (L_at ps) (seq 0 (length ps)).

(** One explicit Euler update, [p + dt · L[p]]. *)
Definition euler_step (ps : list float) : list float :=
  zip_with (fun p l => (p + dt * l)%float) ps (L ps).

(** The sequence [p_0 = p0], [p_k = p_(k-1) + dt · L[p_(k-1)]]. *)
Fixpoint p_seq (p0 : list float) (k : nat) : list float :=
  match k with
  | 0 => p0
  | S k' => euler_step (p_seq p0 k')
  end.

End Specification.

(** ** Finite and non-finite values *)

(** A number one can divide a zero by and get a zero: neither NaN nor zero. *)
Definition usable_divisor (h : float) : bool :=
  negb (is_nan h) && negb (is_zero h).

(** The spacing and its double, the two divisors of [np.gradient]. *)
Definition usable_spacing (dx : float) : bool :=
  usable_divisor dx && usable_divisor (2 * dx).

(** Every coefficient the operator multiplies the density and its
    differences by is finite at the grid point [x]. *)
Definition finite_at (a b b2 x : float) : bool :=
  is_finite (drift'_at a x) && is_finite (drift_at a x)
  && is_finite (gamma''_at b2 x) && is_finite (2 * gamma'_at b2 x)
  && is_finite (gamma_at b x).

Definition finite_coefficients (a b b2 : float) (xs : list float) : bool :=
  forallb (finite_at a b b2) xs.

(** The sign bit of a number is clear (NaN has none). *)
Definition nonneg_sign (x : spec_float) : Prop :=
  match x with
  | S754_zero s | S754_infinity s | S754_finite s _ _ => s = false
  | S754_nan => True
  end.

(** ** The grid as the specification words it *)

(** Every point is below the next one. *)
Definition strictly_increasing (xs : list float) : Prop :=
  forall i x y, xs !! i = Some x -> xs !! S i = Some y -> (x <? y)%float = true.

(** Neighbouring points differ by [h] up to the tolerance [tol]. *)
Definition spaced_within (xs : list float) (h tol : float) : Prop :=
  forall i x y, xs !! i = Some x -> xs !! S i = Some y ->
    (abs (y - x - h) <=? tol)%float = true.

(** The grid of the specification, its spacing left aside (the specification
    asks for it within floating-point tolerance only): [N] points, the first
    equal to [x_min], the last to [x_max], strictly increasing. *)
Definition claimed_grid (x_min x_max : float) (N : Z) : Prop :=
  exists xs dx x0 xn,
    build_grid x_min x_max N = Ok (xs, dx)
    /\ length xs = Z.to_nat N
    /\ xs !! 0 = Some x0 /\ (x0 =? x_min)%float = true
    /\ xs !! (Z.to_nat N - 1) = Some xn /\ (xn =? x_max)%float = true
    /\ strictly_increasing xs.

(** Point [i] of the grid as [np.linspace] computes it, the last point
    apart: [i * step + x_min], or [i / (N - 1) * delta + x_min] when the step
    has rounded to zero, every operation rounded. *)
Definition grid_point (x_min x_max : float) (N : Z) (i : nat) : float :=
  let delta := (x_max - x_min)%float in
  let div := np.of_Z (N - 1) in
  let step := (delta / div)%float in
  if (step =? 0)%float then (np.of_nat i / div * delta + x_min)%float
  else (np.of_nat i * step + x_min)%float.

(** The pairs of neighbouring points, and the two properties as checks. *)
Definition neighbours (xs : list float) : list (float * float) :=
  zip xs (tail xs).

Definition increasingb (xs : list float) : bool :=
  forallb (fun p => (fst p <? snd p)%float) (neighbours xs).

Definition spaced_withinb (xs : list float) (h tol : float) : bool :=
  forallb (fun p => (abs (snd p - fst p - h) <=? tol)%float) (neighbours xs).

(** ** The notebook's own configuration *)

Module notebook.

(** Cell 2. *)
Definition a : float := (-2)%float.
Definition b : float := 1%float.

(** The value of [b ** 2], which Python answers without the C library. *)
Definition b2 : float := 1%float.

(** Cell 3. *)
Definition dt : float := 2e-5%float.
Definition T : Z := 10000.

(** Cell 9. *)
Definition N : Z := 500.
Definition xs : list float := points_of (build_grid (-2) 6 N).
Definition dx : float := spacing_of (build_grid (-2) 6 N).

(** An initial density on the grid: the uniform density of [[-2, 6]]. *)
Definition p0 : list float := replicate (Z.to_nat N) 0.125%float.

(** The state after cell 1, with the initial density allocated. *)
Definition s0 : state :=
  {| heap := {[ 1%positive := Arr1 p0 ]};
     rng := {| seed := 666; draws := 0%N |} |}.

(** Another state: more objects in the store, the generator advanced by the
    trajectory sampler (cells 4 and 5), the density at another reference. *)
Definition s1 : state :=
  {| heap := {[ 1%positive := Arr2 [[1%float]];
                2%positive := Arr1 [0.5%float];
                7%positive := Arr1 p0 ]};
     rng := {| seed := 666; draws := 20002000%N |} |}.

End notebook.

(** ** Cell 3: the time stamps *)

(** [ts = np.linspace(dt, dt * T, T)]. *)
Definition ts (dt : float) (T : Z) : res (list float) :=
  np.linspace dt (dt * np.of_Z T) T.

(** ** Cells 11 and 13: solving and slicing the history *)

(** The position a Python index [k] stands for in a sequence of [n] items:
    a negative index counts from the end, anything outside [-n .. n-1] is an
    [IndexError]. *)
Definition py_index (n : nat) (k : Z) : res nat :=
  if ((0 <=? k) && (k <? Z.of_nat n))%Z then Ok (Z.to_nat k)
  else if ((- Z.of_nat n <=? k) && (k <? 0))%Z then Ok (Z.to_nat (k + Z.of_nat n))
  else Raise IndexError.

(** [m[k, :]] read from a 2-D array. *)
Definition get_row (m : loc) (k : Z) : M (list float) := fun s =>
  match heap s !! m with
  | Some (Arr2 rows) =>
      match py_index (length rows) k with
      | Ok i =>
          match rows !! i with
          | Some row => Ok (row, s)
          | None => Raise IndexError
          end
      | Raise e => Raise e
      end
  | _ => Raise TypeError
  end.

Section Slicing.

Variable pow : float -> float -> float * errno.
Variables a b : float.
Variable xs : list float.
Variable dx : float.
Variable dt : float.
Variables T N : Z.

(** [pdfs = solve_fpk(p0)] followed by the slice [pdfs[k, :]] that cell 13
    plots ("choose any time k you wish"). *)
Definition density_at (k : Z) (p0 : loc) : M (list float) :=
  pdfs ← solve_fpk pow a b xs dx dt T N p0;
  get_row pdfs k.

End Slicing.

(** ** Densities that agree around a grid point *)

(** [p] and [q] hold the same values at every index within [r] of [i]. *)
Definition agree_near (i r : nat) (p q : list float) : Prop :=
  forall j, i - r <= j <= i + r -> p !! j = q !! j.

(** ** Proof automation *)

(** Normalises the length of an array expression. *)
Ltac array_length :=
  repeat first [ rewrite length_zip_with | rewrite length_map
               | rewrite length_seq | rewrite length_replicate
               | rewrite length_insert ].

(** * Properties *)

(** ** Broadcasting and the gradient *)

Section ArrayFacts.

Implicit Types (f u v : list float) (h : float).

Lemma broadcast_same op u v :
  length u = length v -> np.broadcast op u v = Ok (zip_with op u v).
Proof. intros E. unfold np.broadcast. by rewrite decide_True. Qed.

Lemma broadcast_mismatch op u v :
  length u ≠ length v -> length u ≠ 1 -> length v ≠ 1 ->
  np.broadcast op u v = Raise ValueError.
Proof.
  intros E Hu Hv. unfold np.broadcast. rewrite decide_False by done.
  destruct u as [|x [|x' u]]; simpl in *; try done;
  destruct v as [|y [|y' v]]; simpl in *; done.
Qed.

Lemma gradient_interior_length f h :
  length (np.gradient_interior f h) = length f - 2.
Proof. unfold np.gradient_interior. rewrite length_zip_with, length_drop. lia. Qed.

Lemma gradient_interior_lookup f h i :
  i + 2 < length f ->
  np.gradient_interior f h !! i
  = Some ((nth (i + 2) f 0 - nth i f 0) / (2 * h))%float.
Proof.
  intros Hi. unfold np.gradient_interior.
  rewrite lookup_zip_with, lookup_drop.
  destruct (lookup_lt_is_Some_2 f (2 + i)) as [hi Hhi]; [lia|].
  destruct (lookup_lt_is_Some_2 f i) as [lo Hlo]; [lia|].
  rewrite Hhi, Hlo. simpl.
  rewrite (nth_lookup_Some _ _ _ _ Hlo).
  replace (i + 2) with (2 + i) by lia.
  by rewrite (nth_lookup_Some _ _ _ _ Hhi).
Qed.

(** The gradient of fewer than two samples is refused. *)
Lemma gradient_short f h : length f < 2 -> np.gradient f h = Raise ValueError.
Proof. destruct f as [|? [|? ?]]; simpl; [done|done|lia]. Qed.

(** The gradient of at least two samples is the difference scheme. *)
Lemma gradient_scheme f h :
  2 <= length f ->
  np.gradient f h
  = Ok (map (diff_scheme (length f) h (fun j => nth j f 0%float))
            (seq 0 (length f))).
Proof.
  intros Hn. destruct f as [|f0 [|f1 f']] eqn:Ef; simpl in Hn; try lia.
  rewrite <- Ef. unfold np.gradient. rewrite Ef at 1. f_equal.
  apply list_eq. intros i.
  rewrite list_lookup_fmap.
  destruct (decide (i < length f)) as [Hi|Hi].
  - rewrite lookup_seq_lt by done. simpl. unfold diff_scheme.
    destruct (decide (i = 0)) as [->|H0].
    + simpl. by rewrite Ef.
    + destruct i as [|i]; [done|]. simpl.
      destruct (decide (S i = length f - 1)) as [E|E].
      * rewrite lookup_app_r by (rewrite gradient_interior_length; lia).
        rewrite gradient_interior_length.
        by replace (i - (length f - 2)) with 0 by lia.
      * rewrite lookup_app_l by (rewrite gradient_interior_length; lia).
        rewrite gradient_interior_lookup by lia.
        replace (S (i + 1)) with (i + 2) by lia.
        by replace (i - 0) with i by lia.
  - rewrite lookup_seq_ge by lia. simpl.
    apply lookup_ge_None_2. simpl.
    rewrite length_app, gradient_interior_length. simpl.
    rewrite Ef in Hi |- *. simpl in *. lia.
Qed.

Lemma gradient_length f h g :
  np.gradient f h = Ok g -> length g = length f /\ 2 <= length f.
Proof.
  intros H. destruct (decide (2 <= length f)) as [Hn|Hn].
  - rewrite gradient_scheme in H by done. injection H as <-.
    by rewrite length_map, length_seq.
  - rewrite gradient_short in H by lia. done.
Qed.

End ArrayFacts.

(** ** Facts of binary64 arithmetic *)

Section FloatFacts.

Lemma SFmul_comm x y : SF64mul x y = SF64mul y x.
Proof.
  unfold SF64mul, SFmul.
  destruct x as [sx|sx| |sx mx ex], y as [sy|sy| |sy my ey];
    try reflexivity; try (by rewrite xorb_comm).
  by rewrite xorb_comm, Pos.mul_comm, Z.add_comm.
Qed.

(** Multiplication of two binary64 numbers commutes bit for bit. *)
Lemma mul_comm (x y : float) : (x * y)%float = (y * x)%float.
Proof. apply Prim2SF_inj. by rewrite !mul_spec, SFmul_comm. Qed.

Implicit Types (x y z c h : float).

Lemma SFcompare_refl s m e :
  SFcompare (S754_finite s m e) (S754_finite s m e) = Some Eq.
Proof.
  simpl. rewrite Z.compare_refl.
  assert (H : Pos.compare_cont Eq m m = Eq) by apply Pos.compare_cont_refl.
  rewrite H. by destruct s.
Qed.

Lemma is_nan_spec x : is_nan x = true <-> Prim2SF x = S754_nan.
Proof.
  unfold is_nan. rewrite FloatAxioms.eqb_spec. unfold SFeqb.
  destruct (Prim2SF x) as [s|s| |s m e] eqn:E.
  - simpl. split; done.
  - destruct s; simpl; split; done.
  - simpl. split; done.
  - rewrite SFcompare_refl. simpl. split; done.
Qed.

Lemma is_zero_spec x : is_zero x = true <-> exists s, Prim2SF x = S754_zero s.
Proof.
  unfold is_zero. rewrite FloatAxioms.eqb_spec. unfold SFeqb.
  change (Prim2SF zero) with (S754_zero false).
  destruct (Prim2SF x) as [s|s| |s m e] eqn:E; simpl.
  - split; eauto.
  - destruct s; split; try done; intros [? ?]; done.
  - split; try done; intros [? ?]; done.
  - destruct s; split; try done; intros [? ?]; done.
Qed.

Lemma is_finite_spec x :
  is_finite x = true ->
  (exists s, Prim2SF x = S754_zero s)
  \/ (exists s m e, Prim2SF x = S754_finite s m e).
Proof.
  unfold is_finite, is_nan, is_infinity. rewrite !FloatAxioms.eqb_spec, abs_spec.
  change (Prim2SF infinity) with (S754_infinity false). unfold SFeqb.
  destruct (Prim2SF x) as [s|s| |s m e] eqn:E; simpl.
  - eauto.
  - by destruct s.
  - done.
  - intros _. right. eauto.
Qed.

Lemma usable_divisor_spec h :
  usable_divisor h = true ->
  (exists s, Prim2SF h = S754_infinity s)
  \/ (exists s m e, Prim2SF h = S754_finite s m e).
Proof.
  unfold usable_divisor. intros [Hn Hz]%andb_true_iff.
  apply negb_true_iff in Hn, Hz.
  destruct (Prim2SF h) as [s|s| |s m e] eqn:E; eauto.
  - assert (is_zero h = true) by (apply is_zero_spec; eauto). congruence.
  - assert (is_nan h = true) by (by apply is_nan_spec). congruence.
Qed.

(** A finite number times a zero is a zero. *)
Lemma mul_zero c z :
  is_finite c = true -> is_zero z = true -> is_zero (c * z) = true.
Proof.
  intros Hc [sz Hz]%is_zero_spec. apply is_zero_spec.
  rewrite mul_spec, Hz.
  destruct (is_finite_spec c Hc) as [[s ->]|(s & m & e & ->)]; simpl; eauto.
Qed.

Lemma add_zero y z :
  is_zero y = true -> is_zero z = true -> is_zero (y + z) = true.
Proof.
  intros [sy Hy]%is_zero_spec [sz Hz]%is_zero_spec. apply is_zero_spec.
  rewrite add_spec, Hy, Hz. destruct sy, sz; simpl; eauto.
Qed.

Lemma sub_zero y z :
  is_zero y = true -> is_zero z = true -> is_zero (y - z) = true.
Proof.
  intros [sy Hy]%is_zero_spec [sz Hz]%is_zero_spec. apply is_zero_spec.
  rewrite sub_spec, Hy, Hz. destruct sy, sz; simpl; eauto.
Qed.

Lemma opp_zero z : is_zero z = true -> is_zero (- z) = true.
Proof.
  intros [sz Hz]%is_zero_spec. apply is_zero_spec.
  rewrite opp_spec, Hz. simpl. eauto.
Qed.

Lemma div_zero z h :
  is_zero z = true -> usable_divisor h = true -> is_zero (z / h) = true.
Proof.
  intros [sz Hz]%is_zero_spec Hh. apply is_zero_spec.
  rewrite div_spec, Hz.
  destruct (usable_divisor_spec h Hh) as [[s ->]|(s & m & e & ->)]; simpl; eauto.
Qed.

(** Adding a zero of either sign to [+0] gives [+0], on both sides. *)
Lemma add_pos_zero_l z : is_zero z = true -> (0 + z)%float = 0%float.
Proof.
  intros [sz Hz]%is_zero_spec. apply Prim2SF_inj.
  rewrite add_spec, Hz. change (Prim2SF 0) with (S754_zero false).
  by destruct sz.
Qed.

Lemma add_pos_zero_r z : is_zero z = true -> (z + 0)%float = 0%float.
Proof.
  intros [sz Hz]%is_zero_spec. apply Prim2SF_inj.
  rewrite add_spec, Hz. change (Prim2SF 0) with (S754_zero false).
  by destruct sz.
Qed.

(** Rounding keeps the sign it is given. *)
Lemma binary_round_aux_sign s m e l :
  match binary_round_aux prec emax s m e l with
  | S754_zero s' | S754_infinity s' | S754_finite s' _ _ => s' = s
  | S754_nan => True
  end.
Proof.
  unfold binary_round_aux.
  destruct (shr_fexp prec emax m e l) as [mrs' e'].
  destruct (shr_fexp prec emax _ e' loc_Exact) as [mrs'' e''].
  destruct (shr_m mrs''); [done| |done].
  by destruct (e'' <=? emax - prec)%Z.
Qed.

(** A product of two numbers of positive sign has a positive sign. *)
Lemma SFmul_nonneg (u w : spec_float) :
  nonneg_sign u -> nonneg_sign w -> nonneg_sign (SF64mul u w).
Proof.
  unfold SF64mul, SFmul.
  destruct u as [sx|sx| |sx mx ex], w as [sy|sy| |sy my ey]; simpl;
    try done; try (by intros -> ->).
  intros -> ->. simpl.
  apply (binary_round_aux_sign false).
Qed.

Lemma SFmul_square_nonneg (u : spec_float) : nonneg_sign (SF64mul u u).
Proof.
  unfold SF64mul, SFmul.
  destruct u as [sx|sx| |sx mx ex]; simpl; try done; try (by destruct sx).
  pose proof (binary_round_aux_sign (xorb sx sx) (Z.pos (mx * mx)) (ex + ex) loc_Exact) as H.
  destruct (binary_round_aux _ _ _ _ _ _); simpl; try done;
  by destruct sx.
Qed.

(** [2 · b2] times [+0] is [+0] when [b2] has a positive sign and [2 · b2]
    is finite. *)
Lemma second_derivative_gamma_zero b2 :
  nonneg_sign (Prim2SF b2) ->
  is_finite (2 * b2) = true -> (2 * b2 * 0)%float = 0%float.
Proof.
  intros Hb Hf. apply Prim2SF_inj. rewrite mul_spec.
  assert (Hs : nonneg_sign (Prim2SF (2 * b2))).
  { rewrite mul_spec. by apply SFmul_nonneg. }
  change (Prim2SF 0) with (S754_zero false).
  destruct (is_finite_spec _ Hf) as [[s E]|(s & m & e & E)];
    rewrite E in Hs |- *; simpl in *; by subst.
Qed.

(** What Python returns for [v ** 2] has a positive sign when the C
    library's [pow] returns one. *)
Lemma float_pow2_sign pow v r :
  (forall x, nonneg_sign (Prim2SF (fst (pow x 2%float)))) ->
  py.float_pow2 pow v = Ok r -> nonneg_sign (Prim2SF r).
Proof.
  intros Hpow. unfold py.float_pow2.
  destruct (is_nan v) eqn:Hnan.
  { intros [= <-]. apply is_nan_spec in Hnan. by rewrite Hnan. }
  destruct (is_infinity v).
  { intros [= <-]. rewrite abs_spec. by destruct (Prim2SF v). }
  destruct (v =? 0)%float.
  { by intros [= <-]. }
  destruct (_ =? 1)%float.
  { by intros [= <-]. }
  set (iv := if (v <? 0)%float then _ else _).
  specialize (Hpow iv). destruct (pow iv 2%float) as [ix e]. simpl in Hpow.
  destruct e; [destruct (is_infinity ix)|destruct (ix =? 0)%float|];
    try done; by intros [= <-].
Qed.

(** Two finite numbers that compare equal are the same number. *)
Lemma SFeq_finite s0 m0 e0 s m e :
  SFcompare (S754_finite s0 m0 e0) (S754_finite s m e) = Some Eq ->
  s0 = s /\ m0 = m /\ e0 = e.
Proof.
  simpl. destruct s0, s; try done.
  - destruct (Z.compare_spec e0 e) as [->| |]; try done.
    intros [= H]. apply CompOpp_iff in H. simpl in H.
    change (Pos.compare_cont Eq m0 m) with (m0 ?= m)%positive in H.
    apply Pos.compare_eq in H. by subst.
  - destruct (Z.compare_spec e0 e) as [->| |]; try done.
    intros [= H].
    change (Pos.compare_cont Eq m0 m) with (m0 ?= m)%positive in H.
    apply Pos.compare_eq in H. by subst.
Qed.

(** A number that compares equal to one below [y] is below [y]. *)
Lemma eqb_ltb_trans x0 x y :
  (x0 =? x)%float = true -> (x <? y)%float = true -> (x0 <? y)%float = true.
Proof.
  rewrite FloatAxioms.eqb_spec, !ltb_spec.
  unfold SFeqb, SFltb.
  destruct (Prim2SF x0) as [s0|s0| |s0 m0 e0] eqn:E0,
           (Prim2SF x) as [s|s| |s m e] eqn:E;
    try (simpl; done); try (simpl; destruct s; done);
    try (simpl; destruct s0; done).
  - simpl. destruct s0, s; done.
  - destruct (SFcompare (S754_finite s0 m0 e0) (S754_finite s m e)) as [[]|] eqn:Hc;
      try done.
    apply SFeq_finite in Hc as (-> & -> & ->). done.
Qed.

(** So does adding [x] to zero times a finite step. *)
Lemma zero_mul_add_eq step x :
  is_finite step = true -> is_nan x = false ->
  (0 * step + x =? x)%float = true.
Proof.
  intros Hs Hx. rewrite FloatAxioms.eqb_spec, add_spec, mul_spec.
  change (Prim2SF 0) with (S754_zero false).
  assert (Hz : exists s, SF64mul (S754_zero false) (Prim2SF step) = S754_zero s).
  { destruct (is_finite_spec step Hs) as [[s ->]|(s & m & e & ->)];
      simpl; eauto. }
  destruct Hz as [s ->].
  destruct (Prim2SF x) as [sx|sx| |sx mx ex] eqn:E.
  - by destruct s, sx.
  - by destruct sx.
  - apply is_nan_spec in E. congruence.
  - unfold SF64add, SFadd, SFeqb. by rewrite SFcompare_refl.
Qed.

(** A finite step was not computed from a NaN end point. *)
Lemma finite_step_start x_max x_min d :
  is_finite ((x_max - x_min) / d) = true -> is_nan x_min = false.
Proof.
  intros H. destruct (is_nan x_min) eqn:E; [|done].
  apply is_nan_spec in E.
  destruct (is_finite_spec _ H) as [[s Hs]|(s & m & e & Hs)];
    rewrite div_spec, sub_spec, E in Hs;
    by destruct (Prim2SF x_max).
Qed.

(** Adding [x] to a zero gives a number that compares equal to [x]. *)
Lemma zero_add_eq z x :
  is_zero z = true -> is_nan x = false -> (z + x =? x)%float = true.
Proof.
  intros [s Hz]%is_zero_spec Hx. rewrite FloatAxioms.eqb_spec, add_spec, Hz.
  destruct (Prim2SF x) as [sx|sx| |sx mx ex] eqn:E.
  - by destruct s, sx.
  - by destruct sx.
  - apply is_nan_spec in E. congruence.
  - unfold SF64add, SFadd, SFeqb. by rewrite SFcompare_refl.
Qed.

(** Zeros and finite numbers are what [is_finite] accepts. *)
Lemma is_finite_intro x :
  (exists s, Prim2SF x = S754_zero s)
  \/ (exists s m e, Prim2SF x = S754_finite s m e) ->
  is_finite x = true.
Proof.
  unfold is_finite, is_nan, is_infinity. rewrite !FloatAxioms.eqb_spec, abs_spec.
  change (Prim2SF infinity) with (S754_infinity false). unfold SFeqb.
  intros [[s ->]|(s & m & e & ->)].
  - done.
  - rewrite SFcompare_refl. done.
Qed.

(** A finite quotient has a finite numerator and a divisor that is neither
    NaN nor zero. *)
Lemma finite_quotient delta d :
  is_finite (delta / d) = true ->
  is_finite delta = true /\ usable_divisor d = true.
Proof.
  intros H.
  assert (Hq : match Prim2SF delta, Prim2SF d with
               | (S754_zero _ | S754_finite _ _ _),
                 (S754_infinity _ | S754_finite _ _ _) => True
               | _, _ => False
               end).
  { destruct (is_finite_spec _ H) as [[s Hs]|(s & m & e & Hs)];
      rewrite div_spec in Hs;
      destruct (Prim2SF delta) as [s1|s1| |s1 m1 e1],
               (Prim2SF d) as [s2|s2| |s2 m2 e2]; simpl in Hs; done. }
  split.
  - apply is_finite_intro.
    destruct (Prim2SF delta) as [s1|s1| |s1 m1 e1]; try done; eauto.
  - unfold usable_divisor.
    destruct (is_nan d) eqn:En.
    { apply is_nan_spec in En. rewrite En in Hq. by destruct (Prim2SF delta). }
    destruct (is_zero d) eqn:Ez; [|done].
    apply is_zero_spec in Ez as [s Ez]. rewrite Ez in Hq.
    by destruct (Prim2SF delta).
Qed.

End FloatFacts.

(** ** The operator, point by point *)

Section OperatorFacts.

Variable pow : float -> float -> float * errno.
Variables a b b2 : float.
Variable xs : list float.
Variable dx : float.
Variable dt : float.
(** The scalar [b ** 2] returns [b2]. *)
Hypothesis pow_b : py.float_pow2 pow b = Ok b2.

Implicit Types (ps : list float).

(** The scheme reads its samples only inside the grid. *)
Lemma diff_scheme_ext n h (p q : nat -> float) i :
  2 <= n -> i < n -> (forall j, j < n -> p j = q j) ->
  diff_scheme n h p i = diff_scheme n h q i.
Proof.
  intros Hn Hi E. unfold diff_scheme.
  repeat case_decide; rewrite !E by lia; done.
Qed.

Lemma nth_diff_scheme n h (p : nat -> float) j :
  j < n ->
  nth j (map (diff_scheme n h p) (seq 0 n)) 0%float = diff_scheme n h p j.
Proof.
  intros Hj. apply nth_lookup_Some with (i := j) (d := 0%float).
  rewrite list_lookup_fmap, lookup_seq_lt by done. done.
Qed.

(** On a density of the grid's length the operator succeeds with [L]. *)
Lemma fpk_operator_L ps :
  2 <= length xs -> length ps = length xs ->
  fpk_operator pow a b xs dx ps = Ok (L a b b2 xs dx ps).
Proof.
  intros Hn Hlen. unfold fpk_operator. rewrite pow_b. simpl.
  rewrite gradient_scheme by lia. simpl.
  rewrite gradient_scheme by (array_length; lia). simpl.
  array_length.
  unfold np.mul, np.add, drift, dispersion, np.neg, np.square, np.smul.
  repeat (rewrite broadcast_same by (array_length; lia); simpl).
  f_equal. unfold L. apply list_eq. intros i.
  repeat first [ rewrite lookup_zip_with | rewrite list_lookup_fmap ].
  destruct (decide (i < length ps)) as [Hi|Hi].
  - rewrite lookup_seq_lt by done.
    destruct (lookup_lt_is_Some_2 ps i) as [p Hp]; [lia|].
    destruct (lookup_lt_is_Some_2 xs i) as [x Hx]; [lia|].
    rewrite Hp, Hx. simpl. f_equal. unfold L_at.
    rewrite (nth_lookup_Some _ _ _ _ Hp), (nth_lookup_Some _ _ _ _ Hx).
    unfold drift'_at, drift_at, gamma''_at, gamma'_at, gamma_at.
    do 4 f_equal.
    apply diff_scheme_ext; [lia|done|].
    intros j Hj. by apply nth_diff_scheme.
  - rewrite lookup_seq_ge by lia.
    rewrite (lookup_ge_None_2 ps i) by lia. done.
Qed.

Lemma L_length ps : length (L a b b2 xs dx ps) = length ps.
Proof. unfold L. by rewrite length_map, length_seq. Qed.

Lemma L_lookup ps i :
  i < length ps -> L a b b2 xs dx ps !! i = Some (L_at a b b2 xs dx ps i).
Proof.
  intros Hi. unfold L. by rewrite list_lookup_fmap, lookup_seq_lt.
Qed.

(** Any other length is refused. *)
Lemma fpk_operator_mismatch ps :
  2 <= length xs -> length ps ≠ length xs ->
  fpk_operator pow a b xs dx ps = Raise ValueError.
Proof.
  intros Hn Hlen. unfold fpk_operator. rewrite pow_b. simpl.
  destruct (decide (2 <= length ps)) as [Hp|Hp].
  - rewrite gradient_scheme by lia. simpl.
    rewrite gradient_scheme by (array_length; lia). simpl.
    unfold np.mul.
    rewrite (broadcast_mismatch PrimFloat.mul (drift a xs)); [done|..];
      unfold drift, np.smul; array_length; lia.
  - by rewrite gradient_short by lia.
Qed.

(** The Euler step on a density of the grid's length. *)
Lemma euler_euler_step ps :
  2 <= length xs -> length ps = length xs ->
  euler pow a b xs dx dt ps
  = Ok (zip_with (fun p l => (p + l * dt)%float) ps (L a b b2 xs dx ps)).
Proof.
  intros Hn Hlen. unfold euler. rewrite fpk_operator_L by done. simpl.
  unfold np.add, np.muls.
  rewrite broadcast_same by (by rewrite length_map, L_length).
  by rewrite zip_with_fmap_r.
Qed.

(** The same step in the specification's notation, [p + dt · L[p]]. *)
Lemma euler_spec ps :
  2 <= length xs -> length ps = length xs ->
  euler pow a b xs dx dt ps = Ok (euler_step a b b2 xs dx dt ps).
Proof.
  intros Hn Hlen. rewrite euler_euler_step by done. f_equal.
  unfold euler_step. apply zip_with_ext; [|done..].
  intros p l. by rewrite (mul_comm l dt).
Qed.

Lemma euler_step_length ps :
  length (euler_step a b b2 xs dx dt ps) = length ps.
Proof. unfold euler_step. rewrite length_zip_with, L_length. lia. Qed.

Lemma p_seq_length p0 k : length (p_seq a b b2 xs dx dt p0 k) = length p0.
Proof. induction k; simpl; [done|]. by rewrite euler_step_length. Qed.

Lemma p_seq_shift p0 k :
  p_seq a b b2 xs dx dt (euler_step a b b2 xs dx dt p0) k
  = p_seq a b b2 xs dx dt p0 (S k).
Proof. induction k; simpl; [done|]. by rewrite IHk. Qed.

Lemma euler_mismatch ps :
  2 <= length xs -> length ps ≠ length xs ->
  euler pow a b xs dx dt ps = Raise ValueError.
Proof.
  intros Hn Hlen. unfold euler. by rewrite fpk_operator_mismatch.
Qed.

End OperatorFacts.

(** When the scalar [b ** 2] raises, so do the operator and the Euler step,
    before they look at the density. *)
Lemma fpk_operator_pow_raises pow a b xs dx ps e :
  py.float_pow2 pow b = Raise e -> fpk_operator pow a b xs dx ps = Raise e.
Proof. intros H. unfold fpk_operator. by rewrite H. Qed.

Lemma euler_pow_raises pow a b xs dx dt ps e :
  py.float_pow2 pow b = Raise e -> euler pow a b xs dx dt ps = Raise e.
Proof. intros H. unfold euler. by rewrite (fpk_operator_pow_raises _ _ _ _ _ _ e). Qed.


(** ** The store *)

Section StoreFacts.

Implicit Types (s : state) (l : loc) (v : list float).

Lemma M_bind_run {A B} (m : M A) (f : A -> M B) s x s' :
  m s = Ok (x, s') -> (m ≫= f) s = f x s'.
Proof. intros H. unfold mbind, M_bind. by rewrite H. Qed.

Lemma M_bind_raise {A B} (m : M A) (f : A -> M B) s e :
  m s = Raise e -> (m ≫= f) s = Raise e.
Proof. intros H. unfold mbind, M_bind. by rewrite H. Qed.

Lemma fresh_not_allocated s :
  heap s !! fresh (dom (heap s)) = None.
Proof. apply not_elem_of_dom, is_fresh. Qed.

Lemma alloc_run x s :
  ref.alloc x s
  = Ok (fresh (dom (heap s)),
        set_heap (<[fresh (dom (heap s)) := x]> (heap s)) s).
Proof. done. Qed.

Lemma load_run l v s :
  heap s !! l = Some (Arr1 v) -> ref.load l s = Ok (v, s).
Proof. intros H. unfold ref.load. by rewrite H. Qed.

(** An allocation leaves every existing object as it was. *)
Lemma lookup_alloc_old s x l y :
  heap s !! l = Some y ->
  <[fresh (dom (heap s)) := x]> (heap s) !! l = Some y.
Proof.
  intros H. rewrite lookup_insert_ne; [done|].
  intros <-. by rewrite fresh_not_allocated in H.
Qed.

Lemma copy_run l v s :
  heap s !! l = Some (Arr1 v) ->
  ref.copy l s
  = Ok (fresh (dom (heap s)),
        set_heap (<[fresh (dom (heap s)) := Arr1 v]> (heap s)) s).
Proof.
  intros H. unfold ref.copy. by rewrite H.
Qed.

Lemma call_run f l v r s :
  heap s !! l = Some (Arr1 v) -> f v = Ok r ->
  ref.call f l s
  = Ok (fresh (dom (heap s)),
        set_heap (<[fresh (dom (heap s)) := Arr1 r]> (heap s)) s).
Proof.
  intros H Hf. unfold ref.call, mbind, M_bind.
  by rewrite (load_run _ _ _ H), Hf.
Qed.

Lemma call_raise f l v e s :
  heap s !! l = Some (Arr1 v) -> f v = Raise e ->
  ref.call f l s = Raise e.
Proof.
  intros H Hf. unfold ref.call, mbind, M_bind.
  by rewrite (load_run _ _ _ H), Hf.
Qed.

Lemma set_row_run m k src rows row v s :
  heap s !! m = Some (Arr2 rows) -> heap s !! src = Some (Arr1 v) ->
  rows !! k = Some row -> length v = length row ->
  ref.set_row m k src s
  = Ok ((), set_heap (<[m := Arr2 (<[k := v]> rows)]> (heap s)) s).
Proof.
  intros Hm Hsrc Hk Hlen. unfold ref.set_row, ref.broadcast_to.
  by rewrite Hm, Hsrc, Hk, decide_True.
Qed.

End StoreFacts.

(** ** The time loop *)

Section SolverFacts.

Variable pow : float -> float -> float * errno.
Variables a b b2 : float.
Variable xs : list float.
Variable dx : float.
Variable dt : float.
Hypothesis pow_b : py.float_pow2 pow b = Ok b2.
Hypothesis grid_size : 2 <= length xs.

Implicit Types (s : state) (v : list float) (rows : list (list float)).

Local Abbreviation body := (solve_fpk_body pow a b xs dx dt).

(** One iteration on a density of the grid's length: a new array holds the
    Euler update and row [k] of the history is overwritten with it. *)
Lemma body_run pdfs k ps v rows row s :
  heap s !! ps = Some (Arr1 v) -> length v = length xs ->
  heap s !! pdfs = Some (Arr2 rows) ->
  rows !! k = Some row -> length row = length xs ->
  let v1 := euler_step a b b2 xs dx dt v in
  let l1 := fresh (dom (heap s)) in
  body pdfs k ps s
  = Ok (l1, set_heap (<[pdfs := Arr2 (<[k := v1]> rows)]>
                        (<[l1 := Arr1 v1]> (heap s))) s).
Proof.
  intros Hps Hv Hpdfs Hk Hrow v1 l1. unfold body, mbind, M_bind.
  rewrite (call_run _ _ _ v1 _ Hps) by (by apply euler_spec).
  fold l1.
  rewrite (set_row_run pdfs k l1 rows row v1).
  - done.
  - simpl. by apply lookup_alloc_old.
  - simpl. by rewrite lookup_insert_eq.
  - done.
  - unfold v1. rewrite euler_step_length. lia.
Qed.

(** [m] iterations from step [j] fill rows [j .. j+m-1] with the next [m]
    terms of the Euler sequence and touch no other existing object. *)
Lemma loop_run pdfs m : forall j s ps v rows,
  heap s !! ps = Some (Arr1 v) -> length v = length xs ->
  heap s !! pdfs = Some (Arr2 rows) ->
  (forall i row, rows !! i = Some row -> length row = length xs) ->
  j + m <= length rows ->
  exists ps' s',
    for_range (seq j m) (body pdfs) ps s = Ok (ps', s')
    /\ heap s' !! pdfs
       = Some (Arr2 (take j rows
                     ++ map (fun i => p_seq a b b2 xs dx dt v (S i)) (seq 0 m)
                     ++ drop (j + m) rows))
    /\ (forall l, l ≠ pdfs -> l ∈ dom (heap s) -> heap s' !! l = heap s !! l)
    /\ rng s' = rng s.
Proof.
  induction m as [|m IH]; intros j s ps v rows Hps Hv Hpdfs Hrows Hj.
  - exists ps, s. simpl. split; [done|]. split; [|done].
    by rewrite Nat.add_0_r, take_drop.
  - destruct (lookup_lt_is_Some_2 rows j) as [row Hrow]; [lia|].
    pose proof (Hrows _ _ Hrow) as Hlen.
    simpl. unfold mbind at 1, M_bind at 1.
    rewrite (body_run pdfs j ps v rows row s) by done.
    set (v1 := euler_step a b b2 xs dx dt v).
    set (l1 := fresh (dom (heap s))).
    set (s2 := set_heap _ s).
    assert (Hne : l1 ≠ pdfs).
    { intros E. unfold l1 in E. rewrite <- E in Hpdfs.
      by rewrite fresh_not_allocated in Hpdfs. }
    destruct (IH (S j) s2 l1 v1 (<[j := v1]> rows)) as (ps' & s' & Hrun & Hh & Hframe & Hrng).
    + simpl. rewrite lookup_insert_ne by done. by rewrite lookup_insert_eq.
    + unfold v1. by rewrite euler_step_length.
    + simpl. by rewrite lookup_insert_eq.
    + intros i r Hi. destruct (decide (i = j)) as [->|Hij].
      * rewrite list_lookup_insert_eq in Hi by lia. injection Hi as <-.
        unfold v1. by rewrite euler_step_length.
      * rewrite list_lookup_insert_ne in Hi by done. eauto.
    + rewrite length_insert. lia.
    + exists ps', s'. split; [done|]. split; [|split].
      * rewrite Hh. do 2 f_equal.
        rewrite (take_S_r _ _ v1) by (apply list_lookup_insert_eq; lia).
        rewrite take_insert_ge by lia.
        rewrite drop_insert_lt by lia.
        rewrite <- app_assoc. simpl. f_equal. f_equal.
        -- rewrite <- seq_shift, map_map. f_equal; [|f_equal; lia].
           apply map_ext. intros i. unfold v1. by rewrite p_seq_shift.
      * intros l Hl Hdom. rewrite Hframe; [|done|].
        -- simpl. rewrite lookup_insert_ne by done.
           rewrite lookup_insert_ne; [done|].
           intros <-. apply elem_of_dom in Hdom.
           unfold l1 in Hdom. rewrite fresh_not_allocated in Hdom.
           by destruct Hdom.
        -- simpl. rewrite !dom_insert_L. set_solver.
      * by rewrite Hrng.
Qed.

(** A whole run on an initial density of the grid's length. *)
Lemma solve_fpk_run (T N : Z) p0 v s :
  length xs = Z.to_nat N -> (0 <= T)%Z ->
  heap s !! p0 = Some (Arr1 v) -> length v = length xs ->
  exists pdfs s',
    solve_fpk pow a b xs dx dt T N p0 s = Ok (pdfs, s')
    /\ (pdfs ∉ dom (heap s))
    /\ heap s' !! pdfs
       = Some (Arr2 (map (fun i => p_seq a b b2 xs dx dt v (S i))
                         (seq 0 (Z.to_nat T))))
    /\ (forall l, l ∈ dom (heap s) -> heap s' !! l = heap s !! l)
    /\ rng s' = rng s.
Proof.
  intros HN HT Hp0 Hv. unfold solve_fpk, ref.zeros2.
  assert (Ht : (T <? 0)%Z = false) by lia.
  assert (Hn : (N <? 0)%Z = false) by lia.
  rewrite Ht, Hn.
  simpl. unfold mbind at 1, M_bind at 1. rewrite alloc_run.
  set (pdfs := fresh (dom (heap s))).
  set (rows := replicate (Z.to_nat T) (replicate (Z.to_nat N) 0%float)).
  set (s1 := set_heap _ s).
  assert (Hpdfs : pdfs ∉ dom (heap s)) by apply is_fresh.
  assert (Hp0' : heap s1 !! p0 = Some (Arr1 v)) by (by apply lookup_alloc_old).
  unfold mbind at 1, M_bind at 1. rewrite (copy_run _ _ _ Hp0').
  set (ps := fresh (dom (heap s1))).
  set (s2 := set_heap _ s1).
  destruct (loop_run pdfs (Z.to_nat T) 0 s2 ps v rows)
    as (ps' & s' & Hrun & Hh & Hframe & Hrng).
  - simpl. by rewrite lookup_insert_eq.
  - done.
  - simpl. apply lookup_alloc_old. simpl. by rewrite lookup_insert_eq.
  - intros i row Hi. apply lookup_replicate in Hi as [-> _].
    rewrite length_replicate. lia.
  - unfold rows. rewrite length_replicate. lia.
  - exists pdfs, s'. rewrite (M_bind_run _ _ _ _ _ Hrun).
    split; [done|]. split; [done|]. split; [|split].
    + rewrite Hh. simpl. do 2 f_equal.
      rewrite drop_ge by (unfold rows; rewrite length_replicate; lia).
      by rewrite app_nil_r.
    + intros l Hl.
      assert (l ≠ pdfs) by (intros ->; done).
      rewrite Hframe; [|done|].
      * simpl. rewrite lookup_insert_ne.
        -- by rewrite lookup_insert_ne.
        -- intros E. subst l. apply elem_of_dom in Hl as [y Hy].
           assert (heap s1 !! ps = Some y) as Hy'.
           { simpl. by rewrite lookup_insert_ne. }
           unfold ps in Hy'. by rewrite fresh_not_allocated in Hy'.
      * simpl. rewrite !dom_insert_L. set_solver.
    + by rewrite Hrng.
Qed.

End SolverFacts.

(** ** The grid *)

Section GridFacts.

Implicit Types (x_min x_max start stop : float) (N num : Z) (xs : list float).

Lemma arange_length n : length (np.arange n) = n.
Proof. unfold np.arange. by rewrite length_map, length_seq. Qed.

Lemma linspace_negative start stop num :
  (num < 0)%Z -> np.linspace start stop num = Raise ValueError.
Proof.
  intros H. unfold np.linspace.
  assert (E : (num <? 0)%Z = true) by lia. by rewrite E.
Qed.

(** A non-negative number of samples is always served, whatever the ends. *)
Lemma linspace_length start stop num :
  (0 <= num)%Z ->
  exists y, np.linspace start stop num = Ok y /\ length y = Z.to_nat num.
Proof.
  intros H. unfold np.linspace.
  assert (E : (num <? 0)%Z = false) by lia. rewrite E.
  eexists. split; [reflexivity|].
  unfold np.set_last, np.muls.
  repeat case_match; array_length; apply arange_length.
Qed.

(** The last sample is [stop] itself. *)
Lemma linspace_last start stop num y :
  (2 <= num)%Z -> np.linspace start stop num = Ok y ->
  y !! (Z.to_nat num - 1) = Some stop.
Proof.
  intros H Hy.
  destruct (linspace_length start stop num) as (y' & Hy' & Hlen); [lia|].
  rewrite Hy in Hy'. injection Hy' as <-.
  unfold np.linspace in Hy.
  assert (E : (num <? 0)%Z = false) by lia. rewrite E in Hy.
  assert (E1 : (1 <? num)%Z = true) by lia. rewrite E1 in Hy.
  injection Hy as Hy. rewrite <- Hy. unfold np.set_last.
  set (z := map _ _) in *.
  assert (Hz : length z = Z.to_nat num).
  { rewrite <- Hlen, <- Hy. unfold np.set_last. by rewrite length_insert. }
  rewrite Hz. replace (pred (Z.to_nat num)) with (Z.to_nat num - 1) by lia.
  apply list_lookup_insert_eq. lia.
Qed.

(** With a step that did not round to zero, every sample but the last is
    [i * step + start], each operation rounded. *)
Lemma linspace_points start stop num y i :
  (2 <= num)%Z -> np.linspace start stop num = Ok y ->
  is_zero ((stop - start) / np.of_Z (num - 1)) = false ->
  i < Z.to_nat num - 1 ->
  y !! i
  = Some (np.of_nat i * ((stop - start) / np.of_Z (num - 1)) + start)%float.
Proof.
  intros H Hy Hstep Hi. unfold np.linspace in Hy.
  assert (E : (num <? 0)%Z = false) by lia. rewrite E in Hy.
  assert (E0 : (0 <? num - 1)%Z = true) by lia. rewrite E0 in Hy.
  assert (E1 : (1 <? num)%Z = true) by lia. rewrite E1 in Hy.
  unfold is_zero, zero in Hstep. rewrite Hstep in Hy.
  injection Hy as <-. unfold np.set_last, np.muls, np.arange.
  array_length.
  rewrite list_lookup_insert_ne by lia.
  rewrite !list_lookup_fmap, lookup_seq_lt by lia. done.
Qed.

(** Every sample but the last, whichever order of operations numpy took. *)
Lemma linspace_grid_point start stop num y i :
  (2 <= num)%Z -> np.linspace start stop num = Ok y ->
  i < Z.to_nat num - 1 ->
  y !! i = Some (grid_point start stop num i).
Proof.
  intros H Hy Hi. unfold np.linspace in Hy.
  assert (E : (num <? 0)%Z = false) by lia. rewrite E in Hy.
  assert (E0 : (0 <? num - 1)%Z = true) by lia. rewrite E0 in Hy.
  assert (E1 : (1 <? num)%Z = true) by lia. rewrite E1 in Hy.
  injection Hy as <-. unfold grid_point. cbv zeta.
  unfold np.set_last, np.muls, np.arange.
  destruct (_ =? 0)%float; array_length;
    rewrite list_lookup_insert_ne by lia;
    rewrite !list_lookup_fmap, lookup_seq_lt by lia; done.
Qed.

(** The pairs of neighbours, and the two checks that run over them. *)
Lemma neighbours_lookup xs i x y :
  xs !! i = Some x -> xs !! S i = Some y -> neighbours xs !! i = Some (x, y).
Proof.
  intros Hx Hy. unfold neighbours.
  apply lookup_zip_with_Some. exists x, y. split; [done|]. split; [done|].
  by rewrite lookup_tail.
Qed.

Lemma increasingb_correct xs :
  increasingb xs = true -> strictly_increasing xs.
Proof.
  unfold increasingb. rewrite forallb_forall. intros H i x y Hx Hy.
  apply (H (x, y)), list_elem_of_In, list_elem_of_lookup.
  exists i. by apply neighbours_lookup.
Qed.

Lemma spaced_withinb_correct xs h tol :
  spaced_withinb xs h tol = true -> spaced_within xs h tol.
Proof.
  unfold spaced_withinb. rewrite forallb_forall. intros H i x y Hx Hy.
  apply (H (x, y)), list_elem_of_In, list_elem_of_lookup.
  exists i. by apply neighbours_lookup.
Qed.

(** The three outcomes of cell 9. *)
Lemma build_grid_negative x_min x_max N :
  (N < 0)%Z -> build_grid x_min x_max N = Raise ValueError.
Proof. intros H. unfold build_grid. by rewrite linspace_negative. Qed.

Lemma build_grid_too_small x_min x_max N :
  (0 <= N < 2)%Z -> build_grid x_min x_max N = Raise IndexError.
Proof.
  intros H. unfold build_grid.
  destruct (linspace_length x_min x_max N) as (y & -> & Hlen); [lia|].
  simpl. unfold np.index.
  rewrite (lookup_ge_None_2 y 1) by lia. done.
Qed.

Lemma build_grid_succeeds x_min x_max N :
  (2 <= N)%Z ->
  exists xs x0 x1,
    build_grid x_min x_max N = Ok (xs, (x1 - x0)%float)
    /\ np.linspace x_min x_max N = Ok xs
    /\ length xs = Z.to_nat N
    /\ xs !! 0 = Some x0 /\ xs !! 1 = Some x1.
Proof.
  intros H. unfold build_grid.
  destruct (linspace_length x_min x_max N) as (y & Hy & Hlen); [lia|].
  rewrite Hy. simpl. unfold np.index.
  destruct (lookup_lt_is_Some_2 y 0) as [x0 H0]; [lia|].
  destruct (lookup_lt_is_Some_2 y 1) as [x1 H1]; [lia|].
  rewrite H0, H1. simpl. by exists y, x0, x1.
Qed.

(** A grid that was built has at least two points, as many as were asked. *)
Lemma build_grid_inv x_min x_max N xs dx :
  build_grid x_min x_max N = Ok (xs, dx) ->
  (2 <= N)%Z /\ length xs = Z.to_nat N /\ 2 <= length xs.
Proof.
  intros H.
  destruct (Z.lt_ge_cases N 0) as [Hneg|Hpos].
  { by rewrite build_grid_negative in H. }
  destruct (Z.lt_ge_cases N 2) as [Hsmall|Hbig].
  { by rewrite build_grid_too_small in H. }
  destruct (build_grid_succeeds x_min x_max N Hbig)
    as (xs' & x0 & x1 & Hb & _ & Hlen & _).
  rewrite Hb in H. injection H as <- _. repeat split; lia.
Qed.

End GridFacts.

(** ** Two runs side by side *)

Section TwoRuns.

Variable pow : float -> float -> float * errno.
Variables a b : float.
Variable xs : list float.
Variable dx : float.
Variable dt : float.

Local Abbreviation body := (solve_fpk_body pow a b xs dx dt).

Lemma body_same pdfs1 ps1 s1 pdfs2 ps2 s2 k :
  same_arrays pdfs1 ps1 s1 pdfs2 ps2 s2 ->
  same_result pdfs1 pdfs2 (body pdfs1 k ps1 s1) (body pdfs2 k ps2 s2).
Proof.
  intros (rows & v & Hm1 & Hm2 & Hp1 & Hp2).
  unfold solve_fpk_body.
  destruct (euler pow a b xs dx dt v) as [r|e] eqn:He.
  2:{ rewrite !(M_bind_raise (ref.call _ _)) with (e := e);
        [done | by eapply call_raise..]. }
  rewrite (M_bind_run _ _ _ _ _ (call_run _ _ _ _ _ Hp1 He)).
  rewrite (M_bind_run _ _ _ _ _ (call_run _ _ _ _ _ Hp2 He)).
  set (l1 := fresh (dom (heap s1))). set (l2 := fresh (dom (heap s2))).
  assert (Hne1 : l1 ≠ pdfs1).
  { intros E. rewrite <- E in Hm1. unfold l1 in Hm1.
    by rewrite fresh_not_allocated in Hm1. }
  assert (Hne2 : l2 ≠ pdfs2).
  { intros E. rewrite <- E in Hm2. unfold l2 in Hm2.
    by rewrite fresh_not_allocated in Hm2. }
  unfold mbind, M_bind, ref.set_row. simpl.
  rewrite !lookup_insert_eq.
  rewrite (lookup_insert_ne _ l1 pdfs1), (lookup_insert_ne _ l2 pdfs2) by done.
  rewrite Hm1, Hm2.
  destruct (rows !! k) as [row|]; [|done].
  destruct (ref.broadcast_to r (length row)) as [v'|e]; [|done].
  simpl. exists (<[k := v']> rows), r. simpl.
  rewrite !lookup_insert_eq.
  rewrite (lookup_insert_ne _ pdfs1 l1), (lookup_insert_ne _ pdfs2 l2) by done.
  by rewrite !lookup_insert_eq.
Qed.

Lemma for_range_same pdfs1 pdfs2 ks : forall ps1 s1 ps2 s2,
  same_arrays pdfs1 ps1 s1 pdfs2 ps2 s2 ->
  same_result pdfs1 pdfs2
    (for_range ks (body pdfs1) ps1 s1) (for_range ks (body pdfs2) ps2 s2).
Proof.
  induction ks as [|k ks IH]; intros ps1 s1 ps2 s2 H; simpl.
  - done.
  - pose proof (body_same _ _ _ _ _ _ k H) as Hb.
    destruct (body pdfs1 k ps1 s1) as [[l1 s1']|e1] eqn:E1,
             (body pdfs2 k ps2 s2) as [[l2 s2']|e2] eqn:E2;
      simpl in Hb; try done.
    + rewrite (M_bind_run _ _ _ _ _ E1), (M_bind_run _ _ _ _ _ E2).
      by apply IH.
    + by rewrite (M_bind_raise _ _ _ _ E1), (M_bind_raise _ _ _ _ E2).
Qed.

(** Whatever else the two stores hold and wherever the initial density
    lives, two runs on the same values end the same way. *)
Lemma solve_fpk_same (T N : Z) p1 s1 p2 s2 v :
  heap s1 !! p1 = Some (Arr1 v) -> heap s2 !! p2 = Some (Arr1 v) ->
  outcome (solve_fpk pow a b xs dx dt T N p1 s1)
  = outcome (solve_fpk pow a b xs dx dt T N p2 s2).
Proof.
  intros H1 H2. unfold solve_fpk, ref.zeros2.
  destruct ((T <? 0)%Z || (N <? 0)%Z); [done|].
  rewrite !(M_bind_run _ _ _ _ _ (alloc_run _ _)).
  set (rows := replicate _ _).
  set (m1 := fresh (dom (heap s1))). set (m2 := fresh (dom (heap s2))).
  set (s1a := set_heap _ s1). set (s2a := set_heap _ s2).
  assert (H1a : heap s1a !! p1 = Some (Arr1 v)) by (by apply lookup_alloc_old).
  assert (H2a : heap s2a !! p2 = Some (Arr1 v)) by (by apply lookup_alloc_old).
  rewrite (M_bind_run _ _ _ _ _ (copy_run _ _ _ H1a)).
  rewrite (M_bind_run _ _ _ _ _ (copy_run _ _ _ H2a)).
  set (q1 := fresh (dom (heap s1a))). set (q2 := fresh (dom (heap s2a))).
  set (s1b := set_heap _ s1a). set (s2b := set_heap _ s2a).
  assert (Hsame : same_arrays m1 q1 s1b m2 q2 s2b).
  { exists rows, v. simpl. rewrite !lookup_insert_eq.
    repeat split; try done; apply lookup_alloc_old; simpl;
      by rewrite lookup_insert_eq. }
  pose proof (for_range_same m1 m2 (seq 0 (Z.to_nat T)) _ _ _ _ Hsame) as Hl.
  destruct (for_range _ (body m1) q1 s1b) as [[l1 s1']|e1] eqn:E1,
           (for_range _ (body m2) q2 s2b) as [[l2 s2']|e2] eqn:E2;
    simpl in Hl; try done.
  - rewrite (M_bind_run _ _ _ _ _ E1), (M_bind_run _ _ _ _ _ E2).
    destruct Hl as (rows' & v' & R1 & R2 & _). simpl. by rewrite R1, R2.
  - rewrite (M_bind_raise _ _ _ _ E1), (M_bind_raise _ _ _ _ E2).
    simpl. by subst.
Qed.

End TwoRuns.

(** ** The operator on a density of zeros *)

Section ZeroDensity.

Variables a b b2 : float.
Variable xs : list float.
Variable dx : float.
Variable dt : float.

Implicit Types (ps : list float).

Lemma nth_replicate_zero n j :
  nth j (replicate n 0%float) 0%float = 0%float.
Proof.
  destruct (decide (j < n)) as [H|H].
  - apply nth_lookup_Some with (i := j) (d := 0%float).
    by apply lookup_replicate_2.
  - apply nth_overflow. rewrite length_replicate. lia.
Qed.

(** Differences of zeros over a usable spacing are zeros. *)
Lemma diff_scheme_zero n (p : nat -> float) i :
  usable_spacing dx = true ->
  (forall j, is_zero (p j) = true) ->
  is_zero (diff_scheme n dx p i) = true.
Proof.
  intros [H1 H2]%andb_true_iff Hp. unfold diff_scheme.
  repeat case_decide; apply div_zero; try done; by apply sub_zero.
Qed.

(** A sample of a vector of zeros is a zero, inside the vector and out. *)
Lemma nth_zeros ps j :
  (forall y, y ∈ ps -> is_zero y = true) -> is_zero (nth j ps 0%float) = true.
Proof.
  intros H. destruct (decide (j < length ps)) as [Hj|Hj].
  - apply H. apply list_elem_of_In, nth_In. lia.
  - rewrite nth_overflow by lia. reflexivity.
Qed.

(** At a grid point with finite coefficients, [L] of a density of zeros is
    a zero. *)
Lemma L_at_zeros ps i :
  usable_spacing dx = true ->
  finite_at a b b2 (nth i xs 0%float) = true ->
  (forall y, y ∈ ps -> is_zero y = true) ->
  is_zero (L_at a b b2 xs dx ps i) = true.
Proof.
  intros Hdx Hfin Hps. unfold finite_at in Hfin.
  apply andb_true_iff in Hfin as [Hfin Hg].
  apply andb_true_iff in Hfin as [Hfin Hg'].
  apply andb_true_iff in Hfin as [Hfin Hg''].
  apply andb_true_iff in Hfin as [Hd' Hd].
  unfold L_at. cbv zeta.
  set (x := nth i xs 0%float) in *.
  set (p := fun j => nth j ps 0%float).
  assert (Hpz : forall j, is_zero (p j) = true).
  { intros j. unfold p. by apply nth_zeros. }
  pose proof (diff_scheme_zero (length ps) p i Hdx Hpz) as Hp'.
  assert (Hp'' : is_zero (diff_scheme (length ps) dx
                            (diff_scheme (length ps) dx p) i) = true).
  { apply diff_scheme_zero; [done|]. intros j. by apply diff_scheme_zero. }
  fold (p i).
  apply add_zero.
  - apply opp_zero, add_zero; by apply mul_zero.
  - apply mul_zero; [reflexivity|].
    repeat apply add_zero; by apply mul_zero.
Qed.

Lemma L_zeros ps :
  usable_spacing dx = true -> finite_coefficients a b b2 xs = true ->
  length ps = length xs ->
  (forall y, y ∈ ps -> is_zero y = true) ->
  forall y, y ∈ L a b b2 xs dx ps -> is_zero y = true.
Proof.
  intros Hdx Hfin Hlen Hps y Hy. unfold L in Hy.
  apply list_elem_of_fmap in Hy as (i & -> & Hi).
  apply elem_of_seq in Hi.
  apply L_at_zeros; try done.
  unfold finite_coefficients in Hfin. rewrite forallb_forall in Hfin.
  apply Hfin, nth_In. lia.
Qed.

(** One Euler step keeps a density of zeros at zero. *)
Lemma euler_step_zeros ps :
  usable_spacing dx = true -> finite_coefficients a b b2 xs = true ->
  is_finite dt = true ->
  length ps = length xs ->
  (forall y, y ∈ ps -> is_zero y = true) ->
  forall y, y ∈ euler_step a b b2 xs dx dt ps -> is_zero y = true.
Proof.
  intros Hdx Hfin Hdt Hlen Hps y Hy. unfold euler_step in Hy.
  apply list_elem_of_lookup in Hy as [i Hi].
  apply lookup_zip_with_Some in Hi as (p & l & -> & Hp & Hl).
  apply add_zero.
  - apply Hps. by apply list_elem_of_lookup_2 in Hp.
  - apply mul_zero; [done|].
    apply (L_zeros ps); try done. by apply list_elem_of_lookup_2 in Hl.
Qed.

Lemma p_seq_zeros ps k :
  usable_spacing dx = true -> finite_coefficients a b b2 xs = true ->
  is_finite dt = true ->
  length ps = length xs ->
  (forall y, y ∈ ps -> is_zero y = true) ->
  forall y, y ∈ p_seq a b b2 xs dx dt ps k -> is_zero y = true.
Proof.
  intros Hdx Hfin Hdt Hlen Hps. induction k as [|k IH]; simpl; [done|].
  apply euler_step_zeros; try done.
  by rewrite (p_seq_length a b b2 xs dx dt).
Qed.

(** When [b ** 2] has a positive sign, as the square of a real number has,
    [L] of the density of [+0.0] is [+0.0] itself. *)
Lemma L_at_zero n i :
  nonneg_sign (Prim2SF b2) ->
  usable_spacing dx = true ->
  finite_at a b b2 (nth i xs 0%float) = true ->
  L_at a b b2 xs dx (replicate n 0%float) i = 0%float.
Proof.
  intros Hsign Hdx Hfin. unfold finite_at in Hfin.
  apply andb_true_iff in Hfin as [Hfin Hg].
  apply andb_true_iff in Hfin as [Hfin Hg'].
  apply andb_true_iff in Hfin as [Hfin Hg''].
  apply andb_true_iff in Hfin as [Hd' Hd].
  unfold L_at. cbv zeta. rewrite length_replicate.
  set (x := nth i xs 0%float) in *.
  set (p := fun j => nth j (replicate n 0%float) 0%float).
  assert (Hpz : forall j, is_zero (p j) = true).
  { intros j. unfold p. by rewrite nth_replicate_zero. }
  pose proof (diff_scheme_zero n p i Hdx Hpz) as Hp'.
  assert (Hp'' : is_zero (diff_scheme n dx (diff_scheme n dx p) i) = true).
  { apply diff_scheme_zero; [done|]. intros j. by apply diff_scheme_zero. }
  rewrite !nth_replicate_zero.
  unfold gamma''_at in *.
  rewrite second_derivative_gamma_zero by done.
  rewrite add_pos_zero_l by (by apply mul_zero).
  rewrite add_pos_zero_l by (by apply mul_zero).
  change (0.5 * 0)%float with 0%float.
  apply add_pos_zero_r, opp_zero, add_zero; by apply mul_zero.
Qed.

Lemma L_zero :
  nonneg_sign (Prim2SF b2) ->
  usable_spacing dx = true -> finite_coefficients a b b2 xs = true ->
  L a b b2 xs dx (replicate (length xs) 0%float) = replicate (length xs) 0%float.
Proof.
  intros Hsign Hdx Hfin. unfold L. rewrite length_replicate.
  apply list_eq. intros i. rewrite list_lookup_fmap.
  destruct (decide (i < length xs)) as [Hi|Hi].
  - rewrite lookup_seq_lt, lookup_replicate_2 by done. simpl. f_equal.
    apply L_at_zero; [done..|].
    unfold finite_coefficients in Hfin. rewrite forallb_forall in Hfin.
    apply Hfin, nth_In. lia.
  - rewrite lookup_seq_ge by lia. simpl. symmetry.
    apply lookup_ge_None_2. rewrite length_replicate. lia.
Qed.

End ZeroDensity.

(** ** The random generator *)

Section Generator.

Lemma keeps_rng_ret {A} (x : A) : keeps_rng (mret x).
Proof. intros s y s' [= <- <-]. done. Qed.

Lemma keeps_rng_bind {A B} (m : M A) (f : A -> M B) :
  keeps_rng m -> (forall x, keeps_rng (f x)) -> keeps_rng (m ≫= f).
Proof.
  intros Hm Hf s y s' H. unfold mbind, M_bind in H.
  destruct (m s) as [[x s1]|e] eqn:E; [|done].
  rewrite (Hf x _ _ _ H). by apply (Hm _ _ _ E).
Qed.

Lemma keeps_rng_raise {A} e : keeps_rng (fun _ => Raise e : res (A * state)).
Proof. by intros s y s' H. Qed.

Lemma keeps_rng_alloc x : keeps_rng (ref.alloc x).
Proof. intros s l s' [= <- <-]. done. Qed.

Lemma keeps_rng_load l : keeps_rng (ref.load l).
Proof.
  intros s v s' H. unfold ref.load in H.
  destruct (heap s !! l) as [[w|w]|]; try done. by injection H as <- <-.
Qed.

Lemma keeps_rng_copy l : keeps_rng (ref.copy l).
Proof.
  intros s x s' H. unfold ref.copy in H.
  destruct (heap s !! l) as [y|]; [|done]. by apply (keeps_rng_alloc y s x s').
Qed.

Lemma keeps_rng_call f l : keeps_rng (ref.call f l).
Proof.
  apply keeps_rng_bind; [apply keeps_rng_load|]. intros v.
  destruct (f v); [apply keeps_rng_alloc | apply keeps_rng_raise].
Qed.

Lemma keeps_rng_set_row m k src : keeps_rng (ref.set_row m k src).
Proof.
  intros s u s' H. unfold ref.set_row in H.
  repeat case_match; try done. by injection H as <- <-.
Qed.

Lemma keeps_rng_zeros2 T N : keeps_rng (ref.zeros2 T N).
Proof.
  unfold ref.zeros2. case_match; [apply keeps_rng_raise | apply keeps_rng_alloc].
Qed.

Lemma keeps_rng_for_range ks body :
  (forall k ps, keeps_rng (body k ps)) ->
  forall ps, keeps_rng (for_range ks body ps).
Proof.
  intros Hb. induction ks as [|k ks IH]; intros ps; simpl.
  - apply keeps_rng_ret.
  - apply keeps_rng_bind; [apply Hb | apply IH].
Qed.

(** The solver neither draws from the random generator nor reseeds it. *)
Lemma solve_fpk_rng pow a b xs dx dt T N p0 s l s' :
  solve_fpk pow a b xs dx dt T N p0 s = Ok (l, s') -> rng s' = rng s.
Proof.
  revert s l s'. change (keeps_rng (solve_fpk pow a b xs dx dt T N p0)).
  unfold solve_fpk.
  apply keeps_rng_bind; [apply keeps_rng_zeros2|]. intros pdfs.
  apply keeps_rng_bind; [apply keeps_rng_copy|]. intros ps.
  apply keeps_rng_bind; [|intros; apply keeps_rng_ret].
  apply keeps_rng_for_range. intros k q. unfold solve_fpk_body.
  apply keeps_rng_bind; [apply keeps_rng_call|]. intros q'.
  apply keeps_rng_bind; [apply keeps_rng_set_row|]. intros _.
  apply keeps_rng_ret.
Qed.

End Generator.

(** ** The runs that fail *)

Section RunFailures.

Implicit Types (a b dx dt : float) (N T : Z).
Implicit Types (xs v : list float) (s : state).

(** A negative number of steps is refused by [np.zeros]. *)
Lemma solve_fpk_negative_steps pow a b xs dx dt T N p0 s :
  (T < 0)%Z -> solve_fpk pow a b xs dx dt T N p0 s = Raise ValueError.
Proof.
  intros HT. unfold solve_fpk, ref.zeros2.
  assert (E : (T <? 0)%Z = true) by lia. rewrite E. done.
Qed.

(** Without steps nothing looks at the density: any 1-D array gives the
    empty history. *)
Lemma solve_fpk_no_steps pow a b xs dx dt N p0 v s :
  (0 <= N)%Z -> heap s !! p0 = Some (Arr1 v) ->
  exists pdfs s',
    solve_fpk pow a b xs dx dt 0 N p0 s = Ok (pdfs, s')
    /\ heap s' !! pdfs = Some (Arr2 []).
Proof.
  intros HN Hp0. unfold solve_fpk, ref.zeros2.
  assert (E : (N <? 0)%Z = false) by lia. rewrite E. simpl.
  rewrite (M_bind_run _ _ _ _ _ (alloc_run _ _)).
  set (pdfs := fresh (dom (heap s))). set (s1 := set_heap _ s).
  assert (Hp0' : heap s1 !! p0 = Some (Arr1 v)) by (by apply lookup_alloc_old).
  rewrite (M_bind_run _ _ _ _ _ (copy_run _ _ _ Hp0')).
  exists pdfs. eexists. split; [reflexivity|]. simpl.
  apply (lookup_alloc_old s1). simpl. by rewrite lookup_insert_eq.
Qed.

(** With at least one step, a density of the wrong length stops the run at
    the first Euler step. *)
Lemma solve_fpk_wrong_length pow a b b2 xs dx dt T N p0 v s :
  py.float_pow2 pow b = Ok b2 ->
  2 <= length xs -> (0 <= N)%Z -> (0 < T)%Z ->
  heap s !! p0 = Some (Arr1 v) -> length v ≠ length xs ->
  solve_fpk pow a b xs dx dt T N p0 s = Raise ValueError.
Proof.
  intros Hb2 Hn HN HT Hp0 Hv. unfold solve_fpk, ref.zeros2.
  assert (Et : (T <? 0)%Z = false) by lia.
  assert (En : (N <? 0)%Z = false) by lia. rewrite Et, En. simpl.
  rewrite (M_bind_run _ _ _ _ _ (alloc_run _ _)).
  set (pdfs := fresh (dom (heap s))). set (s1 := set_heap _ s).
  assert (Hp0' : heap s1 !! p0 = Some (Arr1 v)) by (by apply lookup_alloc_old).
  rewrite (M_bind_run _ _ _ _ _ (copy_run _ _ _ Hp0')).
  set (ps := fresh (dom (heap s1))). set (s2 := set_heap _ s1).
  apply M_bind_raise.
  destruct (Z.to_nat T) as [|m] eqn:Em; [lia|]. simpl.
  apply M_bind_raise. unfold solve_fpk_body. apply M_bind_raise.
  apply call_raise with (v := v).
  - simpl. by rewrite lookup_insert_eq.
  - by apply (euler_mismatch pow a b b2).
Qed.

(** With at least one step, a scalar [b ** 2] that raises stops the run at
    the first Euler step with that exception, whatever the density. *)
Lemma solve_fpk_pow_raises pow a b xs dx dt T N p0 v s e :
  (0 <= N)%Z -> (0 < T)%Z ->
  heap s !! p0 = Some (Arr1 v) -> py.float_pow2 pow b = Raise e ->
  solve_fpk pow a b xs dx dt T N p0 s = Raise e.
Proof.
  intros HN HT Hp0 Hb2. unfold solve_fpk, ref.zeros2.
  assert (Et : (T <? 0)%Z = false) by lia.
  assert (En : (N <? 0)%Z = false) by lia. rewrite Et, En. simpl.
  rewrite (M_bind_run _ _ _ _ _ (alloc_run _ _)).
  set (pdfs := fresh (dom (heap s))). set (s1 := set_heap _ s).
  assert (Hp0' : heap s1 !! p0 = Some (Arr1 v)) by (by apply lookup_alloc_old).
  rewrite (M_bind_run _ _ _ _ _ (copy_run _ _ _ Hp0')).
  set (ps := fresh (dom (heap s1))). set (s2 := set_heap _ s1).
  apply M_bind_raise.
  destruct (Z.to_nat T) as [|m] eqn:Em; [lia|]. simpl.
  apply M_bind_raise. unfold solve_fpk_body. apply M_bind_raise.
  apply call_raise with (v := v).
  - simpl. by rewrite lookup_insert_eq.
  - by apply euler_pow_raises.
Qed.

(** CPython returns [1.0] for [1.0 ** 2] without calling the C library: the
    notebook's [b ** 2] is [1.0] on every platform. *)
Lemma float_pow2_notebook pow : py.float_pow2 pow notebook.b = Ok notebook.b2.
Proof. reflexivity. Qed.

End RunFailures.

(** * Main results *)

Section MainResults.

Implicit Types (a b dx dt x_min x_max : float) (N T : Z).
Implicit Types (xs ps v : list float) (s : state).

(** C1. On a density vector of the grid's length [N] the operator returns,
    at every grid point, [-(drift'·p + drift·p') + ½(γ''·p + 2γ'·p' + γ·p'')]
    with [γ = dispersion²], [p'] the central/one-sided difference scheme on
    [p] and [p''] the same scheme applied to [p'], and the result has length
    [N] too.  The coefficients [γ' = 2·b2·x] and [γ'' = 2·b2] are built on
    [b2], what Python computes for [b ** 2]; the notebook's [b = 1.0] gives
    [b2 = 1.0] ([float_pow2_notebook]). *)
Theorem fpk_operator_formula pow a b b2 x_min x_max N xs dx ps :
  build_grid x_min x_max N = Ok (xs, dx) ->
  py.float_pow2 pow b = Ok b2 ->
  length ps = Z.to_nat N ->
  exists r,
    fpk_operator pow a b xs dx ps = Ok r
    /\ length r = Z.to_nat N
    /\ forall i, i < Z.to_nat N -> r !! i = Some (L_at a b b2 xs dx ps i).
Proof.
  intros Hgrid Hb2 Hlen.
  destruct (build_grid_inv _ _ _ _ _ Hgrid) as (HN & Hxs & Hn).
  exists (L a b b2 xs dx ps). split; [|split].
  - apply fpk_operator_L; [done|done|congruence].
  - by rewrite L_length.
  - intros i Hi. apply L_lookup. lia.
Qed.

Lemma fpk_operator_formula_witness :
  exists r,
    fpk_operator c_pow_rn notebook.a notebook.b notebook.xs notebook.dx notebook.p0 = Ok r
    /\ length r = Z.to_nat notebook.N
    /\ forall i, i < Z.to_nat notebook.N ->
         r !! i = Some (L_at notebook.a notebook.b notebook.b2 notebook.xs notebook.dx
                          notebook.p0 i).
Proof.
  apply (fpk_operator_formula c_pow_rn _ _ notebook.b2 (-2) 6 notebook.N).
  - vm_compute. reflexivity.
  - vm_compute. reflexivity.
  - vm_compute. reflexivity.
Defined.

(** C7. Where Python computes [b ** 2], as it does for the notebook's [b],
    the operator raises (numpy's [ValueError], the dimension mismatch)
    exactly when the density vector's length differs from the grid length
    [N]; on the right length it returns a result, whatever the values of the
    density. *)
Theorem fpk_operator_raises_iff pow a b b2 x_min x_max N xs dx ps :
  build_grid x_min x_max N = Ok (xs, dx) ->
  py.float_pow2 pow b = Ok b2 ->
  (fpk_operator pow a b xs dx ps = Raise ValueError <-> Z.of_nat (length ps) ≠ N)
  /\ (Z.of_nat (length ps) = N -> exists r, fpk_operator pow a b xs dx ps = Ok r)
  /\ (forall e, fpk_operator pow a b xs dx ps = Raise e -> e = ValueError).
Proof.
  intros Hgrid Hb2.
  destruct (build_grid_inv _ _ _ _ _ Hgrid) as (HN & Hxs & Hn).
  destruct (decide (length ps = length xs)) as [E|E].
  - rewrite (fpk_operator_L pow a b b2) by done. split; [|split].
    + split; [done|]. intros H. lia.
    + intros _. by eexists.
    + done.
  - rewrite (fpk_operator_mismatch pow a b b2) by done. split; [|split].
    + split; [|done]. intros _. lia.
    + intros H. lia.
    + by intros e [= <-].
Qed.

Lemma fpk_operator_raises_iff_witness :
  (fpk_operator c_pow_rn notebook.a notebook.b notebook.xs notebook.dx
     (replicate 499 0.125%float) = Raise ValueError
   <-> Z.of_nat (length (replicate 499 0.125%float)) ≠ notebook.N)
  /\ (Z.of_nat (length (replicate 499 0.125%float)) = notebook.N ->
      exists r, fpk_operator c_pow_rn notebook.a notebook.b notebook.xs notebook.dx
                  (replicate 499 0.125%float) = Ok r)
  /\ (forall e, fpk_operator c_pow_rn notebook.a notebook.b notebook.xs notebook.dx
                  (replicate 499 0.125%float) = Raise e -> e = ValueError).
Proof.
  apply (fpk_operator_raises_iff c_pow_rn _ _ notebook.b2 (-2) 6 notebook.N).
  - vm_compute. reflexivity.
  - vm_compute. reflexivity.
Defined.

(** C2. Where Python computes [b ** 2], a run of [T > 0] steps from an
    initial density of length [N] returns a history of exactly [T] vectors
    whose entry at 0-indexed position [k-1] is [p_k], where [p_0 = p0] and
    [p_k = p_(k-1) + dt · L[p_(k-1)]]: the first entry is [p_1], and [p0]
    itself is not in the history. *)
Theorem solve_fpk_history pow a b b2 x_min x_max N xs dx dt T p0 v s :
  build_grid x_min x_max N = Ok (xs, dx) ->
  py.float_pow2 pow b = Ok b2 ->
  (0 < T)%Z ->
  heap s !! p0 = Some (Arr1 v) -> length v = Z.to_nat N ->
  exists pdfs s' history,
    solve_fpk pow a b xs dx dt T N p0 s = Ok (pdfs, s')
    /\ heap s' !! pdfs = Some (Arr2 history)
    /\ length history = Z.to_nat T
    /\ (forall k, 1 <= k <= Z.to_nat T ->
          history !! (k - 1) = Some (p_seq a b b2 xs dx dt v k))
    /\ history !! 0 = Some (euler_step a b b2 xs dx dt v).
Proof.
  intros Hgrid Hb2 HT Hp0 Hv.
  destruct (build_grid_inv _ _ _ _ _ Hgrid) as (HN & Hxs & Hn).
  destruct (solve_fpk_run pow a b b2 xs dx dt Hb2 Hn T N p0 v s)
    as (pdfs & s' & Hrun & _ & Hh & _); [done|lia|done|congruence|].
  eexists pdfs, s', _. split; [done|]. split; [done|].
  assert (Hk : forall k, 1 <= k <= Z.to_nat T ->
            map (fun i => p_seq a b b2 xs dx dt v (S i)) (seq 0 (Z.to_nat T))
              !! (k - 1) = Some (p_seq a b b2 xs dx dt v k)).
  { intros k Hk. rewrite list_lookup_fmap, lookup_seq_lt by lia.
    destruct k as [|k]; [lia|]. simpl. by rewrite Nat.sub_0_r. }
  split; [|split].
  - by rewrite length_map, length_seq.
  - done.
  - apply (Hk 1). lia.
Qed.

Lemma solve_fpk_history_witness :
  exists pdfs s' history,
    solve_fpk c_pow_rn notebook.a notebook.b notebook.xs notebook.dx notebook.dt
      notebook.T notebook.N 1%positive notebook.s0 = Ok (pdfs, s')
    /\ heap s' !! pdfs = Some (Arr2 history)
    /\ length history = Z.to_nat notebook.T
    /\ (forall k, 1 <= k <= Z.to_nat notebook.T ->
          history !! (k - 1)
          = Some (p_seq notebook.a notebook.b notebook.b2 notebook.xs notebook.dx
                    notebook.dt notebook.p0 k))
    /\ history !! 0
       = Some (euler_step notebook.a notebook.b notebook.b2 notebook.xs notebook.dx
                 notebook.dt notebook.p0).
Proof.
  apply (solve_fpk_history c_pow_rn _ _ notebook.b2 (-2) 6 notebook.N).
  - vm_compute. reflexivity.
  - vm_compute. reflexivity.
  - reflexivity.
  - reflexivity.
  - vm_compute. reflexivity.
Defined.

(** C5. With [T = 0] the run returns an empty history; with [T = 1] it returns
    the single vector [p0 + dt · L[p0]], [L] built on what Python computes
    for [b ** 2]. *)
Theorem solve_fpk_zero_and_one_step pow a b x_min x_max N xs dx dt p0 v s :
  build_grid x_min x_max N = Ok (xs, dx) ->
  heap s !! p0 = Some (Arr1 v) -> length v = Z.to_nat N ->
  (exists pdfs s',
     solve_fpk pow a b xs dx dt 0 N p0 s = Ok (pdfs, s')
     /\ heap s' !! pdfs = Some (Arr2 []))
  /\ (forall b2,
        py.float_pow2 pow b = Ok b2 ->
        exists pdfs s',
          solve_fpk pow a b xs dx dt 1 N p0 s = Ok (pdfs, s')
          /\ heap s' !! pdfs
             = Some (Arr2 [zip_with (fun p l => (p + dt * l)%float)
                             v (L a b b2 xs dx v)])).
Proof.
  intros Hgrid Hp0 Hv.
  destruct (build_grid_inv _ _ _ _ _ Hgrid) as (HN & Hxs & Hn).
  split.
  - apply (solve_fpk_no_steps pow a b xs dx dt N p0 v s); [lia|done].
  - intros b2 Hb2.
    destruct (solve_fpk_run pow a b b2 xs dx dt Hb2 Hn 1 N p0 v s)
      as (pdfs & s' & Hrun & _ & Hh & _); [done|lia|done|congruence|].
    by exists pdfs, s'.
Qed.

Lemma solve_fpk_zero_and_one_step_witness :
  (exists pdfs s',
     solve_fpk c_pow_rn notebook.a notebook.b notebook.xs notebook.dx notebook.dt
       0 notebook.N 1%positive notebook.s0 = Ok (pdfs, s')
     /\ heap s' !! pdfs = Some (Arr2 []))
  /\ (exists pdfs s',
        solve_fpk c_pow_rn notebook.a notebook.b notebook.xs notebook.dx notebook.dt
          1 notebook.N 1%positive notebook.s0 = Ok (pdfs, s')
        /\ heap s' !! pdfs
           = Some (Arr2 [zip_with (fun p l => (p + notebook.dt * l)%float)
                           notebook.p0
                           (L notebook.a notebook.b notebook.b2 notebook.xs notebook.dx
                              notebook.p0)])).
Proof.
  destruct (solve_fpk_zero_and_one_step c_pow_rn notebook.a notebook.b (-2) 6
              notebook.N notebook.xs notebook.dx notebook.dt 1%positive
              notebook.p0 notebook.s0) as [H0 H1].
  - vm_compute. reflexivity.
  - reflexivity.
  - vm_compute. reflexivity.
  - split; [exact H0|]. apply (H1 notebook.b2). reflexivity.
Defined.

(** C8. Whatever the values of the density, of the drift coefficient and of
    the step size, finite or not, and for every dispersion coefficient [b]
    for which Python computes [b ** 2], a run of [T] steps from a vector of
    length [N] raises nothing and returns exactly [T] vectors of length [N],
    the [k]-th being the result of [k+1] Euler updates. *)
Theorem solve_fpk_total pow a b b2 x_min x_max N xs dx dt T p0 v s :
  build_grid x_min x_max N = Ok (xs, dx) ->
  py.float_pow2 pow b = Ok b2 ->
  (0 < T)%Z ->
  heap s !! p0 = Some (Arr1 v) -> length v = Z.to_nat N ->
  exists pdfs s' history,
    solve_fpk pow a b xs dx dt T N p0 s = Ok (pdfs, s')
    /\ heap s' !! pdfs = Some (Arr2 history)
    /\ length history = Z.to_nat T
    /\ forall k, k < Z.to_nat T ->
         exists row, history !! k = Some row
                     /\ length row = Z.to_nat N
                     /\ row = p_seq a b b2 xs dx dt v (S k).
Proof.
  intros Hgrid Hb2 HT Hp0 Hv.
  destruct (build_grid_inv _ _ _ _ _ Hgrid) as (HN & Hxs & Hn).
  destruct (solve_fpk_run pow a b b2 xs dx dt Hb2 Hn T N p0 v s)
    as (pdfs & s' & Hrun & _ & Hh & _); [done|lia|done|congruence|].
  eexists pdfs, s', _. split; [done|]. split; [done|]. split.
  - by rewrite length_map, length_seq.
  - intros k Hk. eexists. split; [|split; [|reflexivity]].
    + by rewrite list_lookup_fmap, lookup_seq_lt.
    + by rewrite p_seq_length.
Qed.

(** A run whose densities are not finite: the initial density holds an
    infinity, so every later vector holds NaN. *)
Lemma solve_fpk_total_witness :
  exists pdfs s' history,
    solve_fpk c_pow_rn notebook.a notebook.b [0; 1; 2]%float 1 notebook.dt 3 3
      1%positive
      {| heap := {[ 1%positive := Arr1 [0; infinity; 0]%float ]};
         rng := {| seed := 666; draws := 0%N |} |}
    = Ok (pdfs, s')
    /\ heap s' !! pdfs = Some (Arr2 history)
    /\ length history = Z.to_nat 3
    /\ forall k, k < Z.to_nat 3 ->
         exists row, history !! k = Some row
                     /\ length row = Z.to_nat 3
                     /\ row = p_seq notebook.a notebook.b notebook.b2 [0; 1; 2]%float 1
                                notebook.dt [0; infinity; 0]%float (S k).
Proof.
  apply (solve_fpk_total c_pow_rn _ _ notebook.b2 0 2 3).
  - vm_compute. reflexivity.
  - vm_compute. reflexivity.
  - reflexivity.
  - reflexivity.
  - reflexivity.
Defined.

(** Such a run, computed: from the second step on, every entry is NaN, and
    the three vectors are returned all the same. *)
Example solve_fpk_non_finite_run :
  outcome (solve_fpk c_pow_rn notebook.a notebook.b [0; 1; 2]%float 1 notebook.dt 3 3
             1%positive
             {| heap := {[ 1%positive := Arr1 [0; infinity; 0]%float ]};
                rng := {| seed := 666; draws := 0%N |} |})
  = Ok (Some (Arr2 [[nan; nan; neg_infinity]; [nan; nan; nan];
                    [nan; nan; nan]])).
Proof. vm_compute. reflexivity. Qed.

(** C9. Two runs with the same inputs return the same history, bit for bit
    (or raise the same exception), whatever else the two stores hold,
    wherever the arrays are allocated, and whatever the state of the random
    generator: the solver draws no random number. *)
Theorem solve_fpk_deterministic pow a b xs dx dt T N p1 s1 p2 s2 v :
  heap s1 !! p1 = Some (Arr1 v) -> heap s2 !! p2 = Some (Arr1 v) ->
  outcome (solve_fpk pow a b xs dx dt T N p1 s1)
  = outcome (solve_fpk pow a b xs dx dt T N p2 s2)
  /\ (forall l s', solve_fpk pow a b xs dx dt T N p1 s1 = Ok (l, s') ->
        rng s' = rng s1).
Proof.
  intros H1 H2. split.
  - by apply solve_fpk_same with (v := v).
  - intros l s' Hrun. by apply (solve_fpk_rng pow a b xs dx dt T N p1 s1 l s').
Qed.

Lemma solve_fpk_deterministic_witness :
  outcome (solve_fpk c_pow_rn notebook.a notebook.b notebook.xs notebook.dx
             notebook.dt notebook.T notebook.N 1%positive notebook.s0)
  = outcome (solve_fpk c_pow_rn notebook.a notebook.b notebook.xs notebook.dx
               notebook.dt notebook.T notebook.N 7%positive notebook.s1)
  /\ (forall l s',
        solve_fpk c_pow_rn notebook.a notebook.b notebook.xs notebook.dx
          notebook.dt notebook.T notebook.N 1%positive notebook.s0
        = Ok (l, s') ->
        rng s' = rng notebook.s0).
Proof.
  apply (solve_fpk_deterministic c_pow_rn _ _ _ _ _ _ _ _ _ _ _ notebook.p0).
  - reflexivity.
  - reflexivity.
Defined.

(** C10. After a run that completes, the caller's initial density is what
    it was: the solver steps on a copy and on the new arrays the Euler step
    returns, writes only into the history it allocated, and leaves every
    object that existed before the call untouched.  The run does complete
    whenever Python computes [b ** 2]. *)
Theorem solve_fpk_preserves_p0 pow a b x_min x_max N xs dx dt T p0 v s :
  build_grid x_min x_max N = Ok (xs, dx) ->
  (0 < T)%Z ->
  heap s !! p0 = Some (Arr1 v) -> length v = Z.to_nat N ->
  (forall pdfs s',
     solve_fpk pow a b xs dx dt T N p0 s = Ok (pdfs, s') ->
     heap s' !! p0 = Some (Arr1 v)
     /\ pdfs ≠ p0
     /\ forall l, l ∈ dom (heap s) -> heap s' !! l = heap s !! l)
  /\ (forall b2, py.float_pow2 pow b = Ok b2 ->
      exists pdfs s', solve_fpk pow a b xs dx dt T N p0 s = Ok (pdfs, s')).
Proof.
  intros Hgrid HT Hp0 Hv.
  destruct (build_grid_inv _ _ _ _ _ Hgrid) as (HN & Hxs & Hn).
  assert (Hdom : p0 ∈ dom (heap s)) by (apply elem_of_dom; eauto).
  split.
  - intros pdfs s' Hrun.
    destruct (py.float_pow2 pow b) as [b2|e] eqn:Hb2.
    + destruct (solve_fpk_run pow a b b2 xs dx dt Hb2 Hn T N p0 v s)
        as (pdfs' & s'' & Hrun' & Hfresh & _ & Hframe & _);
        [done|lia|done|congruence|].
      assert (E : (pdfs, s') = (pdfs', s'')) by congruence.
      apply (f_equal fst) in E as E1. apply (f_equal snd) in E as E2.
      simpl in E1, E2. subst pdfs' s''.
      split; [|split].
      * rewrite Hframe by done. done.
      * intros ->. done.
      * done.
    + rewrite (solve_fpk_pow_raises pow a b xs dx dt T N p0 v s e) in Hrun
        by (done || lia).
      discriminate Hrun.
  - intros b2 Hb2.
    destruct (solve_fpk_run pow a b b2 xs dx dt Hb2 Hn T N p0 v s)
      as (pdfs & s' & Hrun & _); [done|lia|done|congruence|].
    by exists pdfs, s'.
Qed.

Lemma solve_fpk_preserves_p0_witness :
  exists pdfs s',
    solve_fpk c_pow_rn notebook.a notebook.b notebook.xs notebook.dx notebook.dt
      notebook.T notebook.N 7%positive notebook.s1 = Ok (pdfs, s')
    /\ heap s' !! 7%positive = Some (Arr1 notebook.p0)
    /\ pdfs ≠ 7%positive
    /\ forall l, l ∈ dom (heap notebook.s1) ->
         heap s' !! l = heap notebook.s1 !! l.
Proof.
  destruct (solve_fpk_preserves_p0 c_pow_rn notebook.a notebook.b (-2) 6
              notebook.N notebook.xs notebook.dx notebook.dt notebook.T
              7%positive notebook.p0 notebook.s1) as [Hframe Hrun].
  - vm_compute. reflexivity.
  - reflexivity.
  - reflexivity.
  - vm_compute. reflexivity.
  - destruct (Hrun notebook.b2) as (pdfs & s' & H); [reflexivity|].
    exists pdfs, s'. split; [exact H|]. apply Hframe, H.
Defined.

(** C4, as the code has it.  Where Python computes [b ** 2], the
    coefficients the operator multiplies by are finite at every grid point,
    and the spacing and its double are neither zero nor NaN, the operator
    maps the all-zero density of the grid's length to a vector of zeros of
    that length: every entry compares equal to zero, and every entry is
    [+0.0] when [b ** 2] has a positive sign. *)
Theorem fpk_operator_zero pow a b b2 x_min x_max N xs dx :
  build_grid x_min x_max N = Ok (xs, dx) ->
  py.float_pow2 pow b = Ok b2 ->
  finite_coefficients a b b2 xs = true ->
  usable_spacing dx = true ->
  exists r,
    fpk_operator pow a b xs dx (replicate (Z.to_nat N) 0%float) = Ok r
    /\ length r = Z.to_nat N
    /\ (forall y, y ∈ r -> is_zero y = true)
    /\ (nonneg_sign (Prim2SF b2) -> r = replicate (Z.to_nat N) 0%float).
Proof.
  intros Hgrid Hb2 Hfin Hdx.
  destruct (build_grid_inv _ _ _ _ _ Hgrid) as (HN & Hxs & Hn).
  rewrite <- Hxs.
  exists (L a b b2 xs dx (replicate (length xs) 0%float)).
  split; [|split; [|split]].
  - apply fpk_operator_L; [done|done|by rewrite length_replicate].
  - by rewrite L_length, length_replicate.
  - apply L_zeros; [done|done|by rewrite length_replicate|].
    intros y [-> _]%elem_of_replicate. reflexivity.
  - intros Hsign. by apply L_zero.
Qed.

Lemma fpk_operator_zero_witness :
  fpk_operator c_pow_rn notebook.a notebook.b notebook.xs notebook.dx
    (replicate (Z.to_nat notebook.N) 0%float)
  = Ok (replicate (Z.to_nat notebook.N) 0%float).
Proof.
  destruct (fpk_operator_zero c_pow_rn notebook.a notebook.b notebook.b2 (-2) 6
              notebook.N notebook.xs notebook.dx)
    as (r & Hr & _ & _ & Hz).
  - vm_compute. reflexivity.
  - vm_compute. reflexivity.
  - vm_compute. reflexivity.
  - vm_compute. reflexivity.
  - rewrite Hr. f_equal. apply Hz. vm_compute. reflexivity.
Defined.

(** C4, as the specification states it, fails: with the drift coefficient
    [a = 1e308] and the dispersion coefficient [b = 1] the drift [a * x]
    overflows to an infinity at every grid point but [0], the infinity times
    the zero derivative is NaN, and the operator maps the zero density to NaN
    there, whatever the C library. *)
Lemma fpk_operator_zero_fails :
  build_grid (-2) 6 5 = Ok ([-2; 0; 2; 4; 6]%float, 2%float)
  /\ (forall pow,
        fpk_operator pow 1e308 1 [-2; 0; 2; 4; 6]%float 2 (replicate 5 0%float)
        = Ok [nan; 0; nan; nan; nan]%float)
  /\ (forall pow,
        fpk_operator pow 1e308 1 [-2; 0; 2; 4; 6]%float 2 (replicate 5 0%float)
        ≠ Ok (replicate 5 0%float)).
Proof.
  assert (H : forall pow,
            fpk_operator pow 1e308 1 [-2; 0; 2; 4; 6]%float 2 (replicate 5 0%float)
            = Ok [nan; 0; nan; nan; nan]%float).
  { intros pow. vm_compute. reflexivity. }
  split; [|split].
  - vm_compute. reflexivity.
  - exact H.
  - intros pow E. rewrite H in E.
    apply (f_equal (fun r => match r with
                             | Ok (y :: _) => Prim2SF y
                             | _ => S754_zero false
                             end)) in E.
    vm_compute in E. discriminate E.
Qed.

(** C6, as the specification states it, fails: cell 9 accepts two points,
    and it accepts a domain whose ends coincide. *)
Lemma build_grid_accepts_degenerate_domain :
  build_grid 0 1 2 = Ok ([0; 1]%float, 1%float)
  /\ build_grid 1 1 3 = Ok ([1; 1; 1]%float, 0%float).
Proof. split; vm_compute; reflexivity. Qed.

(** C6, as the code has it.  Cell 9 validates nothing about the domain: it
    fails exactly when fewer than two points are asked for, with
    [ValueError] from [np.linspace] for a negative count and [IndexError]
    from [xs[1]] for a count of 0 or 1, whatever the two ends are. *)
Theorem build_grid_failure_iff x_min x_max N :
  (build_grid x_min x_max N = Raise ValueError <-> (N < 0)%Z)
  /\ (build_grid x_min x_max N = Raise IndexError <-> (0 <= N < 2)%Z)
  /\ ((exists xs dx, build_grid x_min x_max N = Ok (xs, dx)) <-> (2 <= N)%Z).
Proof.
  destruct (Z.lt_ge_cases N 0) as [Hneg|Hpos].
  { rewrite build_grid_negative by done.
    repeat split; try done; try lia. by intros (? & ? & ?). }
  destruct (Z.lt_ge_cases N 2) as [Hsmall|Hbig].
  { rewrite build_grid_too_small by lia.
    repeat split; try done; try lia. by intros (? & ? & ?). }
  destruct (build_grid_succeeds x_min x_max N Hbig)
    as (xs & x0 & x1 & -> & _).
  repeat split; try done; try lia. intros _. eauto.
Qed.

(** C3, as the specification states it, fails.  Between [1] and the next
    binary64 number three points cannot strictly increase: the first two are
    both [1].  On [[-1e308, 1e308]] the difference of the ends overflows, so
    that the first point is NaN, not [x_min].  And on [[0, 14 * 2^-1074]] the
    step of ten points rounds up to [2 * 2^-1074], so that the last point but
    one, [16 * 2^-1074], lies above the last. *)
Lemma claimed_grid_fails :
  ((1 <? next_up 1)%float = true /\ ~ claimed_grid 1 (next_up 1) 3)
  /\ ((-1e308 <? 1e308)%float = true /\ ~ claimed_grid (-1e308) 1e308 3)
  /\ ((0 <? 0x1.cp-1071)%float = true
      /\ ~ claimed_grid 0 0x1.cp-1071 10
      /\ exists y8 y9,
           points_of (build_grid 0 0x1.cp-1071 10) !! 8 = Some y8
           /\ points_of (build_grid 0 0x1.cp-1071 10) !! 9 = Some y9
           /\ (y9 <? y8)%float = true).
Proof.
  split; [|split]; (split; [vm_compute; reflexivity|]).
  - intros (xs & dx & x0 & xn & Hb & _ & _ & _ & _ & _ & Hinc).
    assert (E : xs = points_of (build_grid 1 (next_up 1) 3)) by (by rewrite Hb).
    vm_compute in E. subst xs.
    specialize (Hinc 0 1%float 1%float eq_refl eq_refl).
    vm_compute in Hinc. discriminate Hinc.
  - intros (xs & dx & x0 & xn & Hb & _ & H0 & Hx0 & _).
    assert (E : xs = points_of (build_grid (-1e308) 1e308 3)) by (by rewrite Hb).
    vm_compute in E. subst xs.
    assert (E0 : x0 = nan).
    { apply (f_equal (default 0%float)) in H0. simpl in H0. by subst x0. }
    subst x0. vm_compute in Hx0. discriminate Hx0.
  - split.
    + intros (xs & dx & x0 & xn & Hb & _ & _ & _ & _ & _ & Hinc).
      assert (E : xs = points_of (build_grid 0 0x1.cp-1071 10)) by (by rewrite Hb).
      vm_compute in E. subst xs.
      specialize (Hinc 8 _ _ eq_refl eq_refl).
      vm_compute in Hinc. discriminate Hinc.
    + eexists _, _. split; [vm_compute; reflexivity|].
      split; [vm_compute; reflexivity|]. vm_compute. reflexivity.
Qed.

(** C3, as the code has it.  For [N >= 2] cell 9 returns exactly [N] points,
    the last one [x_max] itself, [dx] is the difference of the first two, and
    every point but the last is [grid_point]: [i * step + x_min] with
    [step = (x_max - x_min) / (N - 1)] and each operation rounded.  When the
    step is finite, the first point compares equal to [x_min], and lies below
    [x_max] if [x_min] does.  On the notebook's own
    grid, [-2 .. 6] in 500 points, the specification's grid is what the cell
    returns: the points strictly increase, the first is [x_min], the last is
    [x_max], and neighbours are spaced by [(x_max - x_min) / (N - 1)], and by
    [dx], up to [1e-15]. *)
Theorem build_grid_points :
  (forall x_min x_max N,
     (2 <= N)%Z ->
     exists xs dx,
       build_grid x_min x_max N = Ok (xs, dx)
       /\ length xs = Z.to_nat N
       /\ xs !! (Z.to_nat N - 1) = Some x_max
       /\ (exists x0 x1,
             xs !! 0 = Some x0 /\ xs !! 1 = Some x1 /\ dx = (x1 - x0)%float)
       /\ (forall i, i < Z.to_nat N - 1 ->
             xs !! i = Some (grid_point x_min x_max N i))
       /\ (is_finite ((x_max - x_min) / np.of_Z (N - 1)) = true ->
           exists x0,
             xs !! 0 = Some x0
             /\ (x0 =? x_min)%float = true
             /\ ((x_min <? x_max)%float = true -> (x0 <? x_max)%float = true)))
  /\ (claimed_grid (-2) 6 notebook.N
      /\ strictly_increasing notebook.xs
      /\ spaced_within notebook.xs ((6 - -2) / np.of_Z (notebook.N - 1)) 1e-15
      /\ spaced_within notebook.xs notebook.dx 1e-15).
Proof.
  split.
  - intros x_min x_max N HN.
    destruct (build_grid_succeeds x_min x_max N HN)
      as (xs & x0 & x1 & Hb & Hlin & Hlen & H0 & H1).
    exists xs, (x1 - x0)%float. split; [done|]. split; [done|].
    split; [by apply (linspace_last x_min)|].
    split; [by exists x0, x1|].
    assert (Hpts : forall i, i < Z.to_nat N - 1 ->
              xs !! i = Some (grid_point x_min x_max N i)).
    { intros i Hi. by apply linspace_grid_point. }
    split; [done|].
    intros Hfin.
    assert (Hx0 : (grid_point x_min x_max N 0 =? x_min)%float = true).
    { pose proof (finite_step_start _ _ _ Hfin) as Hnan.
      destruct (finite_quotient _ _ Hfin) as [Hdelta Hdiv].
      unfold grid_point. cbv zeta. change (np.of_nat 0) with 0%float.
      destruct (_ =? 0)%float.
      - apply zero_add_eq; [|done].
        rewrite mul_comm. apply mul_zero; [done|].
        by apply div_zero.
      - by apply zero_mul_add_eq. }
    eexists. split; [apply Hpts; lia|]. split; [done|].
    intros Hlt. by apply (eqb_ltb_trans _ x_min).
  - assert (Hinc : strictly_increasing notebook.xs).
    { apply increasingb_correct. vm_compute. reflexivity. }
    split; [|split; [|split]].
    + exists notebook.xs, notebook.dx, (-2)%float, 6%float.
      split; [vm_compute; reflexivity|].
      split; [vm_compute; reflexivity|].
      split; [vm_compute; reflexivity|].
      split; [vm_compute; reflexivity|].
      split; [vm_compute; reflexivity|].
      split; [vm_compute; reflexivity|done].
    + done.
    + apply spaced_withinb_correct. vm_compute. reflexivity.
    + apply spaced_withinb_correct. vm_compute. reflexivity.
Qed.

(** The general part at the notebook's grid. *)
Lemma build_grid_points_witness :
  exists xs dx,
    build_grid (-2) 6 500 = Ok (xs, dx)
    /\ length xs = Z.to_nat 500
    /\ xs !! (Z.to_nat 500 - 1) = Some 6%float
    /\ (exists x0 x1,
          xs !! 0 = Some x0 /\ xs !! 1 = Some x1 /\ dx = (x1 - x0)%float)
    /\ (forall i, i < Z.to_nat 500 - 1 ->
          xs !! i = Some (grid_point (-2) 6 500 i))
    /\ exists x0,
         xs !! 0 = Some x0
         /\ (x0 =? -2)%float = true
         /\ ((-2 <? 6)%float = true -> (x0 <? 6)%float = true).
Proof.
  destruct (proj1 build_grid_points (-2)%float 6%float 500%Z)
    as (xs & dx & Hb & Hlen & Hlast & Hdx & Hpts & H0); [lia|].
  exists xs, dx. repeat (split; [assumption|]).
  apply H0. vm_compute. reflexivity.
Defined.

End MainResults.

(** * Further properties of the solver *)

(** ** The Euler step and the failures of a run *)

Section StepAndFailures.

Implicit Types (a b dx dt x_min x_max : float) (N T : Z).
Implicit Types (xs ps v : list float) (s : state).

(** X1. On a built grid, when Python computes [b ** 2], [euler] raises
    [ValueError] exactly when the density's length differs from the grid's;
    otherwise it returns a vector of the same length whose entry [i] is
    [p_i + L[p]_i * dt], the product rounded before the sum.  When [b ** 2]
    raises, [euler] raises that exception whatever the density. *)
Theorem euler_raises_or_steps pow a b x_min x_max N xs dx dt ps :
  build_grid x_min x_max N = Ok (xs, dx) ->
  (forall e, py.float_pow2 pow b = Raise e -> euler pow a b xs dx dt ps = Raise e)
  /\ (forall b2,
        py.float_pow2 pow b = Ok b2 ->
        (euler pow a b xs dx dt ps = Raise ValueError <-> Z.of_nat (length ps) ≠ N)
        /\ (Z.of_nat (length ps) = N ->
            exists r,
              euler pow a b xs dx dt ps = Ok r
              /\ length r = length ps
              /\ forall i p, ps !! i = Some p ->
                   r !! i = Some (p + L_at a b b2 xs dx ps i * dt)%float)).
Proof.
  intros Hgrid.
  destruct (build_grid_inv _ _ _ _ _ Hgrid) as (HN & Hxs & Hn).
  split; [intros e He; by apply euler_pow_raises|].
  intros b2 Hb2.
  destruct (decide (length ps = length xs)) as [E|E].
  - rewrite (euler_euler_step pow a b b2) by done. split.
    + split; [done|]. intros H. lia.
    + intros _. eexists. split; [done|]. split.
      * rewrite length_zip_with, L_length. lia.
      * intros i p Hi.
        rewrite lookup_zip_with, Hi. simpl.
        rewrite L_lookup by (by apply lookup_lt_Some in Hi). done.
  - rewrite (euler_mismatch pow a b b2) by done. split.
    + split; [|done]. intros _. lia.
    + intros H. lia.
Qed.

Lemma euler_raises_or_steps_witness :
  (euler c_pow_rn notebook.a notebook.b notebook.xs notebook.dx notebook.dt notebook.p0
   = Raise ValueError <-> Z.of_nat (length notebook.p0) ≠ notebook.N)
  /\ (Z.of_nat (length notebook.p0) = notebook.N ->
      exists r,
        euler c_pow_rn notebook.a notebook.b notebook.xs notebook.dx notebook.dt
          notebook.p0 = Ok r
        /\ length r = length notebook.p0
        /\ forall i p, notebook.p0 !! i = Some p ->
             r !! i
             = Some (p + L_at notebook.a notebook.b notebook.b2 notebook.xs notebook.dx
                           notebook.p0 i * notebook.dt)%float).
Proof.
  destruct (euler_raises_or_steps c_pow_rn notebook.a notebook.b (-2) 6
              notebook.N notebook.xs notebook.dx notebook.dt notebook.p0)
    as [_ H].
  - vm_compute. reflexivity.
  - apply (H notebook.b2). reflexivity.
Defined.

(** A dispersion coefficient whose square overflows: Python raises
    [OverflowError] at [2 * b ** 2], before the density is looked at. *)
Example euler_overflow :
  py.float_pow2 c_pow_rn 1e200 = Raise OverflowError
  /\ euler c_pow_rn (-2) 1e200 notebook.xs notebook.dx notebook.dt notebook.p0
     = Raise OverflowError
  /\ euler c_pow_rn (-2) 1e200 notebook.xs notebook.dx notebook.dt [0.5%float]
     = Raise OverflowError.
Proof. repeat split; vm_compute; reflexivity. Qed.

(** X2. The outcomes of a run on a 1-D array.  A negative number of steps is
    refused with [ValueError]; without steps the empty history is returned
    and the density's length is never looked at; with at least one step the
    run raises what [b ** 2] raises, if it does, and otherwise raises
    [ValueError] on a density whose length is not the grid's and returns on
    the others. *)
Theorem solve_fpk_raises_iff pow a b x_min x_max N xs dx dt T p0 v s :
  build_grid x_min x_max N = Ok (xs, dx) ->
  heap s !! p0 = Some (Arr1 v) ->
  ((T < 0)%Z -> solve_fpk pow a b xs dx dt T N p0 s = Raise ValueError)
  /\ (T = 0%Z ->
      exists pdfs s',
        solve_fpk pow a b xs dx dt T N p0 s = Ok (pdfs, s')
        /\ heap s' !! pdfs = Some (Arr2 []))
  /\ ((0 < T)%Z ->
      forall e, py.float_pow2 pow b = Raise e ->
      solve_fpk pow a b xs dx dt T N p0 s = Raise e)
  /\ ((0 < T)%Z ->
      forall b2, py.float_pow2 pow b = Ok b2 ->
      (solve_fpk pow a b xs dx dt T N p0 s = Raise ValueError
       <-> Z.of_nat (length v) ≠ N)
      /\ (Z.of_nat (length v) = N ->
          exists pdfs s', solve_fpk pow a b xs dx dt T N p0 s = Ok (pdfs, s'))).
Proof.
  intros Hgrid Hp0.
  destruct (build_grid_inv _ _ _ _ _ Hgrid) as (HN & Hxs & Hn).
  split; [|split; [|split]].
  - intros HT. by apply solve_fpk_negative_steps.
  - intros ->. apply (solve_fpk_no_steps pow a b xs dx dt N p0 v s); [lia|done].
  - intros HT e He.
    apply (solve_fpk_pow_raises pow a b xs dx dt T N p0 v s e); (done || lia).
  - intros HT b2 Hb2.
    destruct (decide (length v = length xs)) as [E|E].
    + destruct (solve_fpk_run pow a b b2 xs dx dt Hb2 Hn T N p0 v s)
        as (l & s' & Hrun & _); [done|lia|done|done|].
      rewrite Hrun. split.
      * split; [done|]. intros H. lia.
      * intros _. by exists l, s'.
    + rewrite (solve_fpk_wrong_length pow a b b2 xs dx dt T N p0 v s)
        by (done || lia).
      split.
      * split; [|done]. intros _. lia.
      * intros H. lia.
Qed.

Lemma solve_fpk_raises_iff_witness :
  (solve_fpk c_pow_rn notebook.a notebook.b notebook.xs notebook.dx notebook.dt
     notebook.T notebook.N 2%positive notebook.s1 = Raise ValueError
   <-> Z.of_nat (length [0.5%float]) ≠ notebook.N)
  /\ (Z.of_nat (length [0.5%float]) = notebook.N ->
      exists pdfs s',
        solve_fpk c_pow_rn notebook.a notebook.b notebook.xs notebook.dx
          notebook.dt notebook.T notebook.N 2%positive notebook.s1
        = Ok (pdfs, s')).
Proof.
  destruct (solve_fpk_raises_iff c_pow_rn notebook.a notebook.b (-2) 6
              notebook.N notebook.xs notebook.dx notebook.dt notebook.T
              2%positive [0.5%float] notebook.s1) as (_ & _ & _ & H).
  - vm_compute. reflexivity.
  - reflexivity.
  - apply (H eq_refl notebook.b2). reflexivity.
Defined.

(** The run of the notebook with a dispersion coefficient whose square
    overflows stops with [OverflowError] at its first step. *)
Example solve_fpk_overflow :
  outcome (solve_fpk c_pow_rn (-2) 1e200 notebook.xs notebook.dx notebook.dt
             notebook.T notebook.N 1%positive notebook.s0)
  = Raise OverflowError.
Proof. vm_compute. reflexivity. Qed.

End StepAndFailures.

(** ** How runs compose *)

Section Composition.

Variable pow : float -> float -> float * errno.
Variables a b b2 : float.
Variable xs : list float.
Variable dx : float.
Variable dt : float.
Hypothesis pow_b : py.float_pow2 pow b = Ok b2.

Implicit Types (v w : list float) (s : state) (T N : Z).

Local Abbreviation history v n :=
  (map (fun i => p_seq a b b2 xs dx dt v (S i)) (seq 0 n)).

Lemma p_seq_add v j k :
  p_seq a b b2 xs dx dt (p_seq a b b2 xs dx dt v j) k = p_seq a b b2 xs dx dt v (j + k).
Proof.
  induction k as [|k IH]; simpl.
  - by rewrite Nat.add_0_r.
  - rewrite IH. by replace (j + S k) with (S (j + k)) by lia.
Qed.

Lemma history_lookup v n k :
  k < n -> history v n !! k = Some (p_seq a b b2 xs dx dt v (S k)).
Proof. intros Hk. by rewrite list_lookup_fmap, lookup_seq_lt. Qed.

Lemma history_length v n : length (history v n) = n.
Proof. by rewrite length_map, length_seq. Qed.

(** What the caller sees of a run on a density of the grid's length. *)
Lemma solve_fpk_outcome T N p0 v s :
  2 <= length xs -> length xs = Z.to_nat N -> (0 <= T)%Z ->
  heap s !! p0 = Some (Arr1 v) -> length v = length xs ->
  outcome (solve_fpk pow a b xs dx dt T N p0 s)
  = Ok (Some (Arr2 (history v (Z.to_nat T)))).
Proof.
  intros Hn HN HT Hp0 Hv.
  destruct (solve_fpk_run pow a b b2 xs dx dt pow_b Hn T N p0 v s)
    as (pdfs & s' & -> & _ & Hh & _); try done.
  simpl. by rewrite Hh.
Qed.

(** The history of a longer run starts with the history of a shorter one. *)
Lemma history_take v n m : n <= m -> take n (history v m) = history v n.
Proof.
  intros H. apply list_eq. intros k.
  destruct (decide (k < n)) as [Hk|Hk].
  - rewrite lookup_take_lt by done. rewrite !history_lookup by lia. done.
  - rewrite lookup_take_ge by lia.
    symmetry. apply lookup_ge_None_2. rewrite history_length. lia.
Qed.

(** Restarting from the last vector continues the history. *)
Lemma history_app v n m :
  history v n ++ history (p_seq a b b2 xs dx dt v n) m = history v (n + m).
Proof.
  apply list_eq. intros k.
  destruct (decide (k < n)) as [Hk|Hk].
  - rewrite lookup_app_l by (rewrite history_length; lia).
    rewrite !history_lookup by lia. done.
  - rewrite lookup_app_r by (rewrite history_length; lia).
    rewrite history_length.
    destruct (decide (k - n < m)) as [Hm|Hm].
    + rewrite !history_lookup by lia. rewrite p_seq_add.
      do 2 f_equal. lia.
    + rewrite !(lookup_ge_None_2 (history _ _)); [done|..];
        rewrite history_length; lia.
Qed.

Lemma history_last v n :
  0 < n -> last (history v n) = Some (p_seq a b b2 xs dx dt v n).
Proof.
  intros Hn. rewrite last_lookup, history_length, history_lookup by lia.
  do 2 f_equal. lia.
Qed.

End Composition.

Section CompositionResults.

Implicit Types (a b dx dt x_min x_max : float) (N T : Z).
Implicit Types (xs ps v w : list float) (s : state).

(** X3. The history of a run of [T'] steps starts with the history of the
    run of [T <= T'] steps from the same density: a longer run only appends
    rows.
    (Stated where Python computes [b ** 2].) *)
Theorem solve_fpk_prefix pow a b b2 x_min x_max N xs dx dt T T' p0 v s :
  build_grid x_min x_max N = Ok (xs, dx) ->
  py.float_pow2 pow b = Ok b2 ->
  (0 <= T <= T')%Z ->
  heap s !! p0 = Some (Arr1 v) -> length v = Z.to_nat N ->
  exists H H',
    outcome (solve_fpk pow a b xs dx dt T N p0 s) = Ok (Some (Arr2 H))
    /\ outcome (solve_fpk pow a b xs dx dt T' N p0 s) = Ok (Some (Arr2 H'))
    /\ length H = Z.to_nat T
    /\ take (Z.to_nat T) H' = H.
Proof.
  intros Hgrid Hb2 HT Hp0 Hv.
  destruct (build_grid_inv _ _ _ _ _ Hgrid) as (HN & Hxs & Hn).
  eexists _, _. split; [|split; [|split]].
  - apply (solve_fpk_outcome pow a b b2 xs dx dt Hb2 T N p0 v s); try done; lia.
  - apply (solve_fpk_outcome pow a b b2 xs dx dt Hb2 T' N p0 v s); try done; lia.
  - by rewrite length_map, length_seq.
  - apply history_take. lia.
Qed.

Lemma solve_fpk_prefix_witness :
  exists H H',
    outcome (solve_fpk c_pow_rn notebook.a notebook.b notebook.xs notebook.dx
               notebook.dt 100 notebook.N 1%positive notebook.s0)
    = Ok (Some (Arr2 H))
    /\ outcome (solve_fpk c_pow_rn notebook.a notebook.b notebook.xs notebook.dx
                  notebook.dt notebook.T notebook.N 1%positive notebook.s0)
       = Ok (Some (Arr2 H'))
    /\ length H = Z.to_nat 100
    /\ take (Z.to_nat 100) H' = H.
Proof.
  apply (solve_fpk_prefix c_pow_rn _ _ notebook.b2 (-2) 6 notebook.N _ _ _ _ _ _ notebook.p0).
  - vm_compute. reflexivity.
  - vm_compute. reflexivity.
  - vm_compute. split; discriminate.
  - reflexivity.
  - vm_compute. reflexivity.
Defined.

(** X4. Runs compose: after [T1 > 0] steps, a second run of [T2] steps
    started from the last vector of the first history returns exactly the
    rows that a single run of [T1 + T2] steps appends to it.
    (Stated where Python computes [b ** 2].) *)
Theorem solve_fpk_restart pow a b b2 x_min x_max N xs dx dt T1 T2 p0 v s :
  build_grid x_min x_max N = Ok (xs, dx) ->
  py.float_pow2 pow b = Ok b2 ->
  (0 < T1)%Z -> (0 <= T2)%Z ->
  heap s !! p0 = Some (Arr1 v) -> length v = Z.to_nat N ->
  exists H1 w,
    outcome (solve_fpk pow a b xs dx dt T1 N p0 s) = Ok (Some (Arr2 H1))
    /\ last H1 = Some w
    /\ forall q s2, heap s2 !! q = Some (Arr1 w) ->
         exists H2,
           outcome (solve_fpk pow a b xs dx dt T2 N q s2) = Ok (Some (Arr2 H2))
           /\ outcome (solve_fpk pow a b xs dx dt (T1 + T2) N p0 s)
              = Ok (Some (Arr2 (H1 ++ H2))).
Proof.
  intros Hgrid Hb2 HT1 HT2 Hp0 Hv.
  destruct (build_grid_inv _ _ _ _ _ Hgrid) as (HN & Hxs & Hn).
  eexists _, (p_seq a b b2 xs dx dt v (Z.to_nat T1)).
  split; [|split].
  - apply (solve_fpk_outcome pow a b b2 xs dx dt Hb2 T1 N p0 v s); try done; lia.
  - apply history_last. lia.
  - intros q s2 Hq. eexists. split.
    + apply (solve_fpk_outcome pow a b b2 xs dx dt Hb2 T2 N q
               (p_seq a b b2 xs dx dt v (Z.to_nat T1)) s2); try done.
      rewrite p_seq_length. lia.
    + rewrite history_app.
      rewrite (solve_fpk_outcome pow a b b2 xs dx dt Hb2 (T1 + T2) N p0 v s);
        try done; try lia.
      by rewrite Z2Nat.inj_add by lia.
Qed.

Lemma solve_fpk_restart_witness :
  exists H1 w,
    outcome (solve_fpk c_pow_rn notebook.a notebook.b notebook.xs notebook.dx
               notebook.dt 4000 notebook.N 1%positive notebook.s0)
    = Ok (Some (Arr2 H1))
    /\ last H1 = Some w
    /\ forall q s2, heap s2 !! q = Some (Arr1 w) ->
         exists H2,
           outcome (solve_fpk c_pow_rn notebook.a notebook.b notebook.xs notebook.dx
                      notebook.dt 6000 notebook.N q s2)
           = Ok (Some (Arr2 H2))
           /\ outcome (solve_fpk c_pow_rn notebook.a notebook.b notebook.xs notebook.dx
                         notebook.dt (4000 + 6000) notebook.N 1%positive
                         notebook.s0)
              = Ok (Some (Arr2 (H1 ++ H2))).
Proof.
  apply (solve_fpk_restart c_pow_rn _ _ notebook.b2 (-2) 6 notebook.N _ _ _ _ _ _ notebook.p0).
  - vm_compute. reflexivity.
  - vm_compute. reflexivity.
  - reflexivity.
  - vm_compute. discriminate.
  - reflexivity.
  - vm_compute. reflexivity.
Defined.

End CompositionResults.

(** ** The zero density, the slices and the time stamps *)

Section ZeroRun.

Variables a b b2 : float.
Variable xs : list float.
Variable dx : float.
Variable dt : float.
(** [b ** 2] has a positive sign. *)
Hypothesis b2_sign : nonneg_sign (Prim2SF b2).

(** One Euler step keeps the zero density at zero. *)
Lemma euler_step_zero :
  usable_spacing dx = true -> finite_coefficients a b b2 xs = true ->
  is_finite dt = true ->
  euler_step a b b2 xs dx dt (replicate (length xs) 0%float)
  = replicate (length xs) 0%float.
Proof.
  intros Hdx Hfin Hdt. unfold euler_step.
  rewrite L_zero by done. rewrite zip_with_replicate. f_equal.
  apply add_pos_zero_l. by apply mul_zero.
Qed.

Lemma p_seq_zero k :
  usable_spacing dx = true -> finite_coefficients a b b2 xs = true ->
  is_finite dt = true ->
  p_seq a b b2 xs dx dt (replicate (length xs) 0%float) k
  = replicate (length xs) 0%float.
Proof.
  intros Hdx Hfin Hdt. induction k as [|k IH]; simpl; [done|].
  rewrite IH. by apply euler_step_zero.
Qed.

End ZeroRun.

Section SlicesAndStamps.

Implicit Types (a b dx dt x_min x_max : float) (N T k : Z).
Implicit Types (xs ps v w : list float) (s : state).

(** X5. The zero density is a fixed point of the whole run: where Python
    computes [b ** 2], with finite coefficients, a usable spacing and a
    finite step size, every one of the [T] vectors of the history is a vector
    of [N] zeros, and of [+0.0] when [b ** 2] has a positive sign. *)
Theorem solve_fpk_zero_density pow a b b2 x_min x_max N xs dx dt T p0 s :
  build_grid x_min x_max N = Ok (xs, dx) ->
  py.float_pow2 pow b = Ok b2 ->
  finite_coefficients a b b2 xs = true ->
  usable_spacing dx = true ->
  is_finite dt = true ->
  (0 <= T)%Z ->
  heap s !! p0 = Some (Arr1 (replicate (Z.to_nat N) 0%float)) ->
  exists H,
    outcome (solve_fpk pow a b xs dx dt T N p0 s) = Ok (Some (Arr2 H))
    /\ length H = Z.to_nat T
    /\ (forall row, row ∈ H ->
          length row = Z.to_nat N /\ forall y, y ∈ row -> is_zero y = true)
    /\ (nonneg_sign (Prim2SF b2) ->
        H = replicate (Z.to_nat T) (replicate (Z.to_nat N) 0%float)).
Proof.
  intros Hgrid Hb2 Hfin Hdx Hdt HT Hp0.
  destruct (build_grid_inv _ _ _ _ _ Hgrid) as (HN & Hxs & Hn).
  eexists. split; [|split; [|split]].
  - apply (solve_fpk_outcome pow a b b2 xs dx dt Hb2 T N p0 _ s Hn Hxs HT Hp0).
    rewrite length_replicate. lia.
  - by rewrite length_map, length_seq.
  - intros row (k & -> & _)%list_elem_of_fmap. split.
    + by rewrite p_seq_length, length_replicate.
    + apply (p_seq_zeros a b b2 xs dx dt); try done.
      * rewrite length_replicate. lia.
      * intros y [-> _]%elem_of_replicate. reflexivity.
  - intros Hsign. apply list_eq. intros k.
    rewrite list_lookup_fmap.
    destruct (decide (k < Z.to_nat T)) as [Hk|Hk].
    + rewrite lookup_seq_lt, lookup_replicate_2 by done. simpl. f_equal.
      rewrite <- Hxs.
      change (p_seq a b b2 xs dx dt (replicate (length xs) 0%float) (S k)
              = replicate (length xs) 0%float).
      by apply p_seq_zero.
    + rewrite lookup_seq_ge by lia. simpl. symmetry.
      apply lookup_ge_None_2. rewrite length_replicate. lia.
Qed.

Lemma solve_fpk_zero_density_witness :
  outcome (solve_fpk c_pow_rn notebook.a notebook.b notebook.xs notebook.dx
             notebook.dt notebook.T notebook.N 1%positive
             {| heap := {[ 1%positive
                           := Arr1 (replicate (Z.to_nat notebook.N) 0%float) ]};
                rng := {| seed := 666; draws := 0%N |} |})
  = Ok (Some (Arr2 (replicate (Z.to_nat notebook.T)
                      (replicate (Z.to_nat notebook.N) 0%float)))).
Proof.
  destruct (solve_fpk_zero_density c_pow_rn notebook.a notebook.b notebook.b2
              (-2) 6 notebook.N notebook.xs notebook.dx notebook.dt notebook.T
              1%positive
              {| heap := {[ 1%positive
                            := Arr1 (replicate (Z.to_nat notebook.N) 0%float) ]};
                 rng := {| seed := 666; draws := 0%N |} |})
    as (H & Hrun & _ & _ & Hz).
  - vm_compute. reflexivity.
  - vm_compute. reflexivity.
  - vm_compute. reflexivity.
  - vm_compute. reflexivity.
  - vm_compute. reflexivity.
  - vm_compute. discriminate.
  - reflexivity.
  - rewrite Hrun. do 3 f_equal. apply Hz. vm_compute. reflexivity.
Defined.

Lemma py_index_nonneg n k :
  (0 <= k < Z.of_nat n)%Z -> py_index n k = Ok (Z.to_nat k).
Proof.
  intros H. unfold py_index.
  assert (E : ((0 <=? k) && (k <? Z.of_nat n))%Z = true) by lia.
  by rewrite E.
Qed.

Lemma py_index_negative n k :
  (- Z.of_nat n <= k < 0)%Z -> py_index n k = Ok (Z.to_nat (k + Z.of_nat n)).
Proof.
  intros H. unfold py_index.
  assert (E : ((0 <=? k) && (k <? Z.of_nat n))%Z = false) by lia.
  assert (E' : ((- Z.of_nat n <=? k) && (k <? 0))%Z = true) by lia.
  by rewrite E, E'.
Qed.

Lemma py_index_out n k :
  (k < - Z.of_nat n \/ Z.of_nat n <= k)%Z -> py_index n k = Raise IndexError.
Proof.
  intros H. unfold py_index.
  assert (E : ((0 <=? k) && (k <? Z.of_nat n))%Z = false) by lia.
  assert (E' : ((- Z.of_nat n <=? k) && (k <? 0))%Z = false) by lia.
  by rewrite E, E'.
Qed.

(** X6. The slice [pdfs[k, :]] of the solved history: a non-negative [k < T]
    gives the density after [k + 1] steps, a negative [k >= -T] counts from
    the end, so that [k = -1] is the terminal density after [T] steps, and
    any other [k] (every [k] when [T = 0]) raises [IndexError].
    (Stated where Python computes [b ** 2].) *)
Theorem density_at_row pow a b b2 x_min x_max N xs dx dt T k p0 v s :
  build_grid x_min x_max N = Ok (xs, dx) ->
  py.float_pow2 pow b = Ok b2 ->
  (0 <= T)%Z ->
  heap s !! p0 = Some (Arr1 v) -> length v = Z.to_nat N ->
  ((0 <= k < T)%Z ->
     exists s', density_at pow a b xs dx dt T N k p0 s
                = Ok (p_seq a b b2 xs dx dt v (Z.to_nat k + 1), s'))
  /\ ((- T <= k < 0)%Z ->
        exists s', density_at pow a b xs dx dt T N k p0 s
                   = Ok (p_seq a b b2 xs dx dt v (Z.to_nat (T + k) + 1), s'))
  /\ ((k < - T \/ T <= k)%Z ->
        density_at pow a b xs dx dt T N k p0 s = Raise IndexError).
Proof.
  intros Hgrid Hb2 HT Hp0 Hv.
  destruct (build_grid_inv _ _ _ _ _ Hgrid) as (HN & Hxs & Hn).
  destruct (solve_fpk_run pow a b b2 xs dx dt Hb2 Hn T N p0 v s)
    as (pdfs & s' & Hrun & _ & Hh & _); [done|lia|done|congruence|].
  unfold density_at. rewrite (M_bind_run _ _ _ _ _ Hrun).
  unfold get_row. rewrite Hh. rewrite length_map, length_seq.
  split; [|split]; intros Hk.
  - rewrite py_index_nonneg by lia.
    rewrite list_lookup_fmap, lookup_seq_lt by lia. simpl.
    exists s'. by rewrite Nat.add_1_r.
  - rewrite py_index_negative by lia.
    rewrite list_lookup_fmap, lookup_seq_lt by lia. simpl.
    exists s'. rewrite Nat.add_1_r.
    by replace (k + Z.of_nat (Z.to_nat T))%Z with (T + k)%Z by lia.
  - by rewrite py_index_out by lia.
Qed.

Lemma density_at_row_witness :
  exists s', density_at c_pow_rn notebook.a notebook.b notebook.xs notebook.dx
               notebook.dt notebook.T notebook.N (-1) 1%positive notebook.s0
             = Ok (p_seq notebook.a notebook.b notebook.b2 notebook.xs notebook.dx
                     notebook.dt notebook.p0
                     (Z.to_nat (notebook.T + -1) + 1), s').
Proof.
  apply (density_at_row c_pow_rn _ _ notebook.b2 (-2) 6 notebook.N).
  - vm_compute. reflexivity.
  - vm_compute. reflexivity.
  - vm_compute. discriminate.
  - reflexivity.
  - vm_compute. reflexivity.
  - vm_compute. split; [discriminate|reflexivity].
Defined.

(** X7. The time stamps of cell 3 and the history go together: for [T >= 0]
    there are exactly [T] stamps, from two stamps on the last one is
    [dt * T] itself, and where Python computes [b ** 2] the history has one
    row per stamp; a negative [T] makes both cells raise [ValueError]. *)
Theorem ts_matches_history pow a b x_min x_max N xs dx dt T p0 v s :
  build_grid x_min x_max N = Ok (xs, dx) ->
  heap s !! p0 = Some (Arr1 v) -> length v = Z.to_nat N ->
  ((0 <= T)%Z ->
     exists stamps,
       ts dt T = Ok stamps
       /\ length stamps = Z.to_nat T
       /\ ((2 <= T)%Z -> last stamps = Some (dt * np.of_Z T)%float)
       /\ forall b2,
            py.float_pow2 pow b = Ok b2 ->
            exists H,
              outcome (solve_fpk pow a b xs dx dt T N p0 s) = Ok (Some (Arr2 H))
              /\ length H = length stamps)
  /\ ((T < 0)%Z ->
        ts dt T = Raise ValueError
        /\ solve_fpk pow a b xs dx dt T N p0 s = Raise ValueError).
Proof.
  intros Hgrid Hp0 Hv.
  destruct (build_grid_inv _ _ _ _ _ Hgrid) as (HN & Hxs & Hn).
  split; intros HT.
  - destruct (linspace_length dt (dt * np.of_Z T) T HT) as (l & Hl & Hlen).
    exists l. split; [done|]. split; [done|]. split.
    + intros H2. rewrite last_lookup, Hlen.
      replace (pred (Z.to_nat T)) with (Z.to_nat T - 1) by lia.
      by apply (linspace_last dt).
    + intros b2 Hb2. eexists. split.
      * apply (solve_fpk_outcome pow a b b2 xs dx dt Hb2 T N p0 v s); try done.
        congruence.
      * by rewrite length_map, length_seq.
  - split.
    + by apply linspace_negative.
    + by apply solve_fpk_negative_steps.
Qed.

Lemma ts_matches_history_witness :
  exists stamps H,
    ts notebook.dt notebook.T = Ok stamps
    /\ outcome (solve_fpk c_pow_rn notebook.a notebook.b notebook.xs notebook.dx
                  notebook.dt notebook.T notebook.N 1%positive notebook.s0)
       = Ok (Some (Arr2 H))
    /\ length stamps = Z.to_nat notebook.T
    /\ length H = length stamps
    /\ ((2 <= notebook.T)%Z ->
        last stamps = Some (notebook.dt * np.of_Z notebook.T)%float).
Proof.
  destruct (ts_matches_history c_pow_rn notebook.a notebook.b (-2) 6 notebook.N
              notebook.xs notebook.dx notebook.dt notebook.T 1%positive
              notebook.p0 notebook.s0) as [Hts _].
  - vm_compute. reflexivity.
  - reflexivity.
  - vm_compute. reflexivity.
  - destruct Hts as (stamps & Hs & Hlen & Hlast & Hrun).
    { vm_compute. discriminate. }
    destruct (Hrun notebook.b2) as (H & HH & HlenH); [reflexivity|].
    exists stamps, H. repeat (split; [assumption|]). exact Hlast.
Defined.

End SlicesAndStamps.

(** ** The domain of dependence *)

Section Locality.

Variables a b b2 : float.
Variable xs : list float.
Variable dx : float.
Variable dt : float.

Implicit Types (ps qs : list float).

(** The difference scheme at [i] reads the samples [i-1 .. i+1] only. *)
Lemma diff_scheme_local n h (p q : nat -> float) i :
  2 <= n -> i < n ->
  (forall j, j < n -> i - 1 <= j <= i + 1 -> p j = q j) ->
  diff_scheme n h p i = diff_scheme n h q i.
Proof.
  intros Hn Hi E. unfold diff_scheme.
  repeat case_decide; rewrite !E by lia; done.
Qed.

Lemma nth_agree ps qs j :
  ps !! j = qs !! j -> nth j ps 0%float = nth j qs 0%float.
Proof. intros H. by rewrite !nth_lookup, H. Qed.

(** [L[p]] at [i] reads the density at the indices [i-2 .. i+2] only. *)
Lemma L_at_local ps qs i :
  2 <= length ps -> length qs = length ps -> i < length ps ->
  agree_near i 2 ps qs ->
  L_at a b b2 xs dx ps i = L_at a b b2 xs dx qs i.
Proof.
  intros Hn Hlen Hi Hag. unfold L_at. cbv zeta. rewrite Hlen.
  rewrite (nth_agree ps qs i) by (apply Hag; lia).
  assert (H1 : forall j, j < length ps -> i - 1 <= j <= i + 1 ->
            diff_scheme (length ps) dx (fun j => nth j ps 0%float) j
            = diff_scheme (length ps) dx (fun j => nth j qs 0%float) j).
  { intros j Hj Hij. apply diff_scheme_local; [done..|].
    intros j' Hj' Hjj'. apply nth_agree, Hag. lia. }
  rewrite (H1 i) by lia.
  by rewrite (diff_scheme_local _ _ _ _ i Hn Hi H1).
Qed.

Lemma euler_step_local ps qs i :
  2 <= length ps -> length qs = length ps -> i < length ps ->
  agree_near i 2 ps qs ->
  euler_step a b b2 xs dx dt ps !! i = euler_step a b b2 xs dx dt qs !! i.
Proof.
  intros Hn Hlen Hi Hag. unfold euler_step.
  rewrite !lookup_zip_with, !L_lookup by lia.
  rewrite (Hag i) by lia.
  by rewrite (L_at_local ps qs i).
Qed.

(** After [k] steps the value at [i] has read the initial density at the
    indices [i-2k .. i+2k] only. *)
Lemma p_seq_local k : forall ps qs i,
  2 <= length ps -> length qs = length ps -> i < length ps ->
  agree_near i (2 * k) ps qs ->
  p_seq a b b2 xs dx dt ps k !! i = p_seq a b b2 xs dx dt qs k !! i.
Proof.
  induction k as [|k IH]; intros ps qs i Hn Hlen Hi Hag; simpl.
  - apply Hag. lia.
  - apply euler_step_local; rewrite ?p_seq_length; try done.
    intros j Hj.
    destruct (decide (j < length ps)) as [Hjn|Hjn].
    + apply IH; try done. intros j' Hj'. apply Hag. lia.
    + rewrite !lookup_ge_None_2; [done|..]; rewrite p_seq_length; lia.
Qed.

End Locality.

Section LocalityResults.

Implicit Types (a b dx dt x_min x_max : float) (N T : Z).
Implicit Types (xs ps qs v w : list float) (s : state).

(** X8. The operator has a five-point stencil: its value at grid point [i]
    depends on the density at the indices [i-2 .. i+2] only, also next to the
    two ends of the grid.
    (Stated where Python computes [b ** 2].) *)
Theorem fpk_operator_local pow a b b2 x_min x_max N xs dx ps qs i :
  build_grid x_min x_max N = Ok (xs, dx) ->
  py.float_pow2 pow b = Ok b2 ->
  length ps = Z.to_nat N -> length qs = Z.to_nat N ->
  i < Z.to_nat N ->
  agree_near i 2 ps qs ->
  exists r r',
    fpk_operator pow a b xs dx ps = Ok r
    /\ fpk_operator pow a b xs dx qs = Ok r'
    /\ r !! i = r' !! i.
Proof.
  intros Hgrid Hb2 Hps Hqs Hi Hag.
  destruct (build_grid_inv _ _ _ _ _ Hgrid) as (HN & Hxs & Hn).
  exists (L a b b2 xs dx ps), (L a b b2 xs dx qs). split; [|split].
  - apply fpk_operator_L; [done|done|congruence].
  - apply fpk_operator_L; [done|done|congruence].
  - rewrite !L_lookup by lia. f_equal.
    apply L_at_local; try done; lia.
Qed.

Lemma fpk_operator_local_witness :
  exists r r',
    fpk_operator c_pow_rn notebook.a notebook.b notebook.xs notebook.dx notebook.p0
    = Ok r
    /\ fpk_operator c_pow_rn notebook.a notebook.b notebook.xs notebook.dx
         (<[250 := 1%float]> notebook.p0) = Ok r'
    /\ r !! 247 = r' !! 247.
Proof.
  apply (fpk_operator_local c_pow_rn _ _ notebook.b2 (-2) 6 notebook.N).
  - vm_compute. reflexivity.
  - vm_compute. reflexivity.
  - vm_compute. reflexivity.
  - vm_compute. reflexivity.
  - vm_compute. lia.
  - intros j Hj. rewrite list_lookup_insert_ne by lia. reflexivity.
Defined.

(** X9. Information travels two grid points per step: the density after [k]
    steps at grid point [i] depends on the initial density at the indices
    [i-2k .. i+2k] only.  Two runs whose initial densities agree there agree
    at entry [i] of row [k-1] of their histories.
    (Stated where Python computes [b ** 2].) *)
Theorem solve_fpk_local pow a b b2 x_min x_max N xs dx dt T p1 v s1 p2 w s2 k i :
  build_grid x_min x_max N = Ok (xs, dx) ->
  py.float_pow2 pow b = Ok b2 ->
  heap s1 !! p1 = Some (Arr1 v) -> length v = Z.to_nat N ->
  heap s2 !! p2 = Some (Arr1 w) -> length w = Z.to_nat N ->
  1 <= k <= Z.to_nat T -> i < Z.to_nat N ->
  agree_near i (2 * k) v w ->
  exists H1 H2 r1 r2,
    outcome (solve_fpk pow a b xs dx dt T N p1 s1) = Ok (Some (Arr2 H1))
    /\ outcome (solve_fpk pow a b xs dx dt T N p2 s2) = Ok (Some (Arr2 H2))
    /\ H1 !! (k - 1) = Some r1 /\ H2 !! (k - 1) = Some r2
    /\ r1 !! i = r2 !! i.
Proof.
  intros Hgrid Hb2 Hp1 Hv Hp2 Hw Hk Hi Hag.
  destruct (build_grid_inv _ _ _ _ _ Hgrid) as (HN & Hxs & Hn).
  eexists _, _, (p_seq a b b2 xs dx dt v k), (p_seq a b b2 xs dx dt w k).
  split; [|split; [|split; [|split]]].
  - apply (solve_fpk_outcome pow a b b2 xs dx dt Hb2 T N p1 v s1); try done; lia.
  - apply (solve_fpk_outcome pow a b b2 xs dx dt Hb2 T N p2 w s2); try done; lia.
  - rewrite history_lookup by lia. do 2 f_equal. lia.
  - rewrite history_lookup by lia. do 2 f_equal. lia.
  - apply p_seq_local; try done; lia.
Qed.

Lemma solve_fpk_local_witness :
  exists H1 H2 r1 r2,
    outcome (solve_fpk c_pow_rn notebook.a notebook.b notebook.xs notebook.dx
               notebook.dt notebook.T notebook.N 1%positive notebook.s0)
    = Ok (Some (Arr2 H1))
    /\ outcome (solve_fpk c_pow_rn notebook.a notebook.b notebook.xs notebook.dx
                  notebook.dt notebook.T notebook.N 3%positive
                  {| heap := {[ 3%positive
                                := Arr1 (<[250 := 1%float]> notebook.p0) ]};
                     rng := {| seed := 1; draws := 0%N |} |})
       = Ok (Some (Arr2 H2))
    /\ H1 !! (10 - 1) = Some r1 /\ H2 !! (10 - 1) = Some r2
    /\ r1 !! 229 = r2 !! 229.
Proof.
  apply (solve_fpk_local c_pow_rn _ _ notebook.b2 (-2) 6 notebook.N _ _ _ _ _
           notebook.p0 _ _ (<[250 := 1%float]> notebook.p0)).
  - vm_compute. reflexivity.
  - vm_compute. reflexivity.
  - reflexivity.
  - vm_compute. reflexivity.
  - reflexivity.
  - vm_compute. reflexivity.
  - vm_compute. lia.
  - vm_compute. lia.
  - intros j Hj. rewrite list_lookup_insert_ne by lia. reflexivity.
Defined.

End LocalityResults.

(** ** A flat density and the sign of the diffusion coefficient *)

Section FlatDensity.

Implicit Types (x y z c h : float).

(** A finite number minus itself is [+0]. *)
Lemma sub_self c : is_finite c = true -> (c - c)%float = 0%float.
Proof.
  intros Hc. apply Prim2SF_inj. rewrite sub_spec.
  change (Prim2SF 0) with (S754_zero false).
  destruct (is_finite_spec c Hc) as [[s ->]|(s & m & e & ->)].
  - by destruct s.
  - unfold SF64sub, SFsub. rewrite Z.min_id.
    unfold shl_align. by rewrite !Z.sub_diag.
Qed.

(** Adding a zero to a number that is not a zero changes nothing. *)
Lemma add_zero_r_id x z :
  is_zero x = false -> is_zero z = true -> (x + z)%float = x.
Proof.
  intros Hx [sz Hz]%is_zero_spec. apply Prim2SF_inj.
  rewrite add_spec, Hz.
  destruct (Prim2SF x) as [s|s| |s m e] eqn:E; try done.
  assert (is_zero x = true) by (apply is_zero_spec; eauto). congruence.
Qed.

Variables a b b2 : float.
Variable xs : list float.
Variable dx : float.

(** Differences of a constant over a usable spacing are zeros. *)
Lemma diff_scheme_const n c i :
  usable_spacing dx = true -> is_finite c = true ->
  is_zero (diff_scheme n dx (fun _ => c) i) = true.
Proof.
  intros [H1 H2]%andb_true_iff Hc. unfold diff_scheme.
  repeat case_decide; apply div_zero; try done; by rewrite sub_self.
Qed.

(** On a constant density only the terms without a derivative of the
    density are left. *)
Lemma L_at_const n c i :
  2 <= n -> i < n ->
  usable_spacing dx = true ->
  finite_at a b b2 (nth i xs 0%float) = true ->
  is_finite c = true ->
  is_zero (a * c) = false -> is_zero (2 * b2 * c) = false ->
  L_at a b b2 xs dx (replicate n c) i
  = (- (a * c) + 0.5 * (2 * b2 * c))%float.
Proof.
  intros Hn Hi Hdx Hfin Hc Hac Hgc. unfold finite_at in Hfin.
  apply andb_true_iff in Hfin as [Hfin Hg].
  apply andb_true_iff in Hfin as [Hfin Hg'].
  apply andb_true_iff in Hfin as [Hfin Hg''].
  apply andb_true_iff in Hfin as [Hd' Hd].
  unfold L_at. cbv zeta. rewrite length_replicate.
  set (x := nth i xs 0%float) in *.
  set (p := fun j => nth j (replicate n c) 0%float).
  assert (Hp : forall j, j < n -> p j = c).
  { intros j Hj. unfold p. apply nth_lookup_Some with (i := j) (d := 0%float).
    by apply lookup_replicate_2. }
  assert (Hp' : forall j, j < n ->
            diff_scheme n dx p j = diff_scheme n dx (fun _ => c) j).
  { intros j Hj. apply diff_scheme_ext; [done..|]. intros j' Hj'. by apply Hp. }
  assert (Z1 : is_zero (diff_scheme n dx p i) = true).
  { rewrite Hp' by done. by apply diff_scheme_const. }
  assert (Z2 : is_zero (diff_scheme n dx (diff_scheme n dx p) i) = true).
  { rewrite (diff_scheme_ext n dx _ (diff_scheme n dx (fun _ => c)) i Hn Hi Hp').
    apply diff_scheme_zero; [done|]. intros j. by apply diff_scheme_const. }
  fold (p i). rewrite (Hp i Hi).
  unfold drift'_at, gamma''_at.
  rewrite (add_zero_r_id (a * c)) by (done || by apply mul_zero).
  rewrite (add_zero_r_id (2 * b2 * c)) by (done || by apply mul_zero).
  rewrite (add_zero_r_id (2 * b2 * c)) by (done || by apply mul_zero).
  done.
Qed.

End FlatDensity.

Section FlatDensityResults.

Implicit Types (a b c dx dt x_min x_max : float) (N T : Z).
Implicit Types (xs ps : list float).

(** X10. A flat density gets a flat response: on the constant density [c]
    every difference of the density vanishes, and the operator returns
    [-(a·c) + ½(2·b2·c)] at every grid point, the ends included, [b2] being
    what Python computes for [b ** 2] (finite coefficients and [c], usable
    spacing, and [a·c] and [2·b2·c] not zero). *)
Theorem fpk_operator_flat pow a b b2 x_min x_max N xs dx c :
  build_grid x_min x_max N = Ok (xs, dx) ->
  py.float_pow2 pow b = Ok b2 ->
  finite_coefficients a b b2 xs = true ->
  usable_spacing dx = true ->
  is_finite c = true ->
  is_zero (a * c) = false -> is_zero (2 * b2 * c) = false ->
  fpk_operator pow a b xs dx (replicate (Z.to_nat N) c)
  = Ok (replicate (Z.to_nat N) (- (a * c) + 0.5 * (2 * b2 * c))%float).
Proof.
  intros Hgrid Hb2 Hfin Hdx Hc Hac Hgc.
  destruct (build_grid_inv _ _ _ _ _ Hgrid) as (HN & Hxs & Hn).
  rewrite (fpk_operator_L pow a b b2) by (rewrite ?length_replicate; done).
  f_equal. unfold L. rewrite length_replicate.
  apply list_eq. intros i. rewrite list_lookup_fmap.
  destruct (decide (i < Z.to_nat N)) as [Hi|Hi].
  - rewrite lookup_seq_lt, lookup_replicate_2 by done. simpl. f_equal.
    apply L_at_const; try done; try lia.
    unfold finite_coefficients in Hfin. rewrite forallb_forall in Hfin.
    apply Hfin, nth_In. lia.
  - rewrite lookup_seq_ge by lia. simpl. symmetry.
    apply lookup_ge_None_2. rewrite length_replicate. lia.
Qed.

Lemma fpk_operator_flat_witness :
  fpk_operator c_pow_rn notebook.a notebook.b notebook.xs notebook.dx
    (replicate (Z.to_nat notebook.N) 0.125%float)
  = Ok (replicate (Z.to_nat notebook.N)
          (- (notebook.a * 0.125)
           + 0.5 * (2 * notebook.b2 * 0.125))%float).
Proof.
  apply (fpk_operator_flat c_pow_rn _ _ notebook.b2 (-2) 6 notebook.N).
  - vm_compute. reflexivity.
  - vm_compute. reflexivity.
  - vm_compute. reflexivity.
  - vm_compute. reflexivity.
  - vm_compute. reflexivity.
  - vm_compute. reflexivity.
  - vm_compute. reflexivity.
Defined.

(** X11. The diffusion coefficients are never negative: no entry of
    [gamma = dispersion(xs) ** 2] and no value of [2 * b ** 2] compares below
    zero, whatever [b] and the grid are (infinities and NaN included); the
    latter with the square taken as the product [b * b], and as Python's
    [b ** 2] over any C library whose [pow] returns no negative number. *)
Theorem gamma_never_negative b xs g :
  g ∈ np.square (dispersion b xs) ->
  (g <? 0)%float = false /\ (2 * np.pow2 b <? 0)%float = false
  /\ (forall pow b2,
        (forall x, nonneg_sign (Prim2SF (fst (pow x 2%float)))) ->
        py.float_pow2 pow b = Ok b2 -> (2 * b2 <? 0)%float = false).
Proof.
  assert (Hnn : forall y : float,
            nonneg_sign (Prim2SF y) -> (y <? 0)%float = false).
  { intros y Hy. rewrite ltb_spec. change (Prim2SF 0) with (S754_zero false).
    unfold SFltb. destruct (Prim2SF y) as [s|s| |s m e]; simpl in *;
      by subst. }
  intros Hg. split.
  - unfold np.square, dispersion, np.smul in Hg.
    apply list_elem_of_fmap in Hg as (y & -> & _).
    apply Hnn. unfold np.pow2. rewrite mul_spec. apply SFmul_square_nonneg.
  - split.
    + apply Hnn. unfold np.pow2. rewrite !mul_spec.
      apply SFmul_nonneg; [done|apply SFmul_square_nonneg].
    + intros pow b2 Hpow Hb2. apply Hnn. rewrite mul_spec.
      apply SFmul_nonneg; [done|]. by apply (float_pow2_sign pow b).
Qed.

Lemma gamma_never_negative_witness :
  (36 <? 0)%float = false /\ (2 * np.pow2 notebook.b <? 0)%float = false
  /\ (forall pow b2,
        (forall x, nonneg_sign (Prim2SF (fst (pow x 2%float)))) ->
        py.float_pow2 pow notebook.b = Ok b2 -> (2 * b2 <? 0)%float = false).
Proof.
  apply (gamma_never_negative notebook.b notebook.xs 36%float).
  apply list_elem_of_lookup. exists 499. vm_compute. reflexivity.
Defined.

End FlatDensityResults.

(** ** A NaN in the density *)

Section NaN.

Implicit Types (x y c : float).

Lemma mul_nan_r c : (c * nan)%float = nan.
Proof.
  apply Prim2SF_inj. rewrite mul_spec.
  change (Prim2SF nan) with S754_nan. by destruct (Prim2SF c).
Qed.

Lemma add_nan_l y : (nan + y)%float = nan.
Proof.
  apply Prim2SF_inj. rewrite add_spec.
  change (Prim2SF nan) with S754_nan. done.
Qed.

Variables a b b2 : float.
Variable xs : list float.
Variable dx : float.
Variable dt : float.

(** Where the density is NaN, so is [L]. *)
Lemma L_at_nan ps i :
  ps !! i = Some nan -> L_at a b b2 xs dx ps i = nan.
Proof.
  intros Hi. unfold L_at. cbv zeta.
  rewrite (nth_lookup_Some _ _ _ _ Hi).
  unfold drift'_at. rewrite mul_nan_r, add_nan_l.
  change (- nan)%float with nan. by rewrite add_nan_l.
Qed.

Lemma euler_step_nan ps i :
  ps !! i = Some nan -> euler_step a b b2 xs dx dt ps !! i = Some nan.
Proof.
  intros Hi. unfold euler_step.
  rewrite lookup_zip_with, Hi. simpl.
  rewrite L_lookup by (by apply lookup_lt_Some in Hi). simpl.
  by rewrite add_nan_l.
Qed.

Lemma p_seq_nan ps i k :
  ps !! i = Some nan -> p_seq a b b2 xs dx dt ps k !! i = Some nan.
Proof.
  intros Hi. induction k as [|k IH]; simpl; [done|].
  by apply euler_step_nan.
Qed.

End NaN.

Section NaNResults.

Implicit Types (a b dx dt x_min x_max : float) (N T : Z).
Implicit Types (xs v : list float) (s : state).

(** X12. A NaN never goes away: if the initial density is NaN at grid point
    [i], every one of the [T] vectors of the history is NaN at [i]; the run
    neither raises nor repairs the value.
    (Stated where Python computes [b ** 2].) *)
Theorem solve_fpk_nan_persists pow a b b2 x_min x_max N xs dx dt T p0 v s i :
  build_grid x_min x_max N = Ok (xs, dx) ->
  py.float_pow2 pow b = Ok b2 ->
  (0 <= T)%Z ->
  heap s !! p0 = Some (Arr1 v) -> length v = Z.to_nat N ->
  v !! i = Some nan ->
  exists H,
    outcome (solve_fpk pow a b xs dx dt T N p0 s) = Ok (Some (Arr2 H))
    /\ length H = Z.to_nat T
    /\ forall k row, H !! k = Some row -> row !! i = Some nan.
Proof.
  intros Hgrid Hb2 HT Hp0 Hv Hi.
  destruct (build_grid_inv _ _ _ _ _ Hgrid) as (HN & Hxs & Hn).
  eexists. split; [|split].
  - apply (solve_fpk_outcome pow a b b2 xs dx dt Hb2 T N p0 v s); try done. congruence.
  - by rewrite length_map, length_seq.
  - intros k row Hk.
    apply list_lookup_fmap_Some in Hk as (j & -> & _).
    by apply p_seq_nan.
Qed.

Lemma solve_fpk_nan_persists_witness :
  exists H,
    outcome (solve_fpk c_pow_rn notebook.a notebook.b notebook.xs notebook.dx
               notebook.dt notebook.T notebook.N 3%positive
               {| heap := {[ 3%positive
                             := Arr1 (<[250 := nan]> notebook.p0) ]};
                  rng := {| seed := 666; draws := 0%N |} |})
    = Ok (Some (Arr2 H))
    /\ length H = Z.to_nat notebook.T
    /\ forall k row, H !! k = Some row -> row !! 250 = Some nan.
Proof.
  apply (solve_fpk_nan_persists c_pow_rn _ _ notebook.b2 (-2) 6 notebook.N _ _ _ _ _
           (<[250 := nan]> notebook.p0)).
  - vm_compute. reflexivity.
  - vm_compute. reflexivity.
  - vm_compute. discriminate.
  - reflexivity.
  - vm_compute. reflexivity.
  - vm_compute. reflexivity.
Defined.

End NaNResults.
